(** * Account service: identity, credentials and use cases

    A shallow embedding of the domain layer ([app/domain]), the credential
    helpers ([app/shared/security.py]) and the use cases ([app/use_cases])
    of the account service, with the properties of its specification.

    Conventions of the embedding:
    - a Python [str] is the list of its code points ([pystr]); [len] is
      the length of that list; string literals of the source are written
      as UTF-8 text and decoded by [py];
    - a call that may raise returns a [Res]: [Ok v] or [Raise e];
    - the clock ([datetime.now]), [uuid.uuid4] and the salt of the password
      hasher are read from oracles indexed by a counter kept in the [World];
    - the libraries the code calls ([pwdlib], [jwt], the SQLAlchemy session
      behind the repository) are parameters of the sections that use them;
    - log calls have no effect on the values modelled and are left out. *)

From Stdlib Require Import ZArith NArith List String Ascii Bool Lia.
From stdpp Require Import base gmap.
Import ListNotations.

Local Open Scope N_scope.

(* ===================================================================== *)
(** ** Python strings *)
(* ===================================================================== *)

Module PyStr.

(** A [str] as the sequence of its Unicode code points. *)
Definition pystr : Type := list N.

Definition bytes_of (s : string) : list N :=
  map (fun a => N_of_ascii a) (list_ascii_of_string s).

(** UTF-8 decoding of the bytes of a literal (well-formed input only; the
    stray bytes of a malformed one are kept as they are). *)
Fixpoint utf8_decode (bs : list N) : pystr :=
  match bs with
  | [] => []
  | b0 :: r0 =>
    if b0 <? 192 then b0 :: utf8_decode r0
    else
      match r0 with
      | [] => [b0]
      | b1 :: r1 =>
        if b0 <? 224 then ((b0 - 192) * 64 + (b1 - 128)) :: utf8_decode r1
        else
          match r1 with
          | [] => [b0; b1]
          | b2 :: r2 =>
            if b0 <? 240
            then ((b0 - 224) * 4096 + (b1 - 128) * 64 + (b2 - 128))
                   :: utf8_decode r2
            else
              match r2 with
              | [] => [b0; b1; b2]
              | b3 :: r3 =>
                ((b0 - 240) * 262144 + (b1 - 128) * 4096
                 + (b2 - 128) * 64 + (b3 - 128)) :: utf8_decode r3
              end
          end
      end
  end.

(** The [str] a source literal denotes. *)
Definition py (s : string) : pystr := utf8_decode (bytes_of s).

Definition len (s : pystr) : nat := List.length s.

(** Truthiness of a [str]: non-empty. *)
Definition truthy (s : pystr) : bool :=
  match s with [] => false | _ :: _ => true end.

Fixpoint eqb (a b : pystr) : bool :=
  match a, b with
  | [], [] => true
  | x :: a', y :: b' => (x =? y) && eqb a' b'
  | _, _ => false
  end.

Fixpoint startswith (p s : pystr) : bool :=
  match p, s with
  | [], _ => true
  | x :: p', y :: s' => (x =? y) && startswith p' s'
  | _ :: _, [] => false
  end.

(** [needle in hay]: [needle] occurs as a contiguous run of [hay]. *)
Fixpoint contains (needle hay : pystr) : bool :=
  startswith needle hay
  || match hay with
     | [] => false
     | _ :: hay' => contains needle hay'
     end.

(** [re.search(r"[lo-hi]", s)] for a one-range character class: some code
    point of [s] lies in the range. Without flags, [re] compares code
    points, so [[A-Z]] is exactly 65..90. *)
Definition in_range (lo hi c : N) : bool := (lo <=? c) && (c <=? hi).

Definition search_class (lo hi : N) (s : pystr) : bool :=
  existsb (in_range lo hi) s.

(** [str.lower] restricted to strings of ASCII code points, where it maps
    A..Z to a..z and leaves the rest; the use cases take [str.lower] as a
    parameter and this function instantiates it on ASCII messages. *)
Definition ascii_lower (s : pystr) : pystr :=
  map (fun c => if in_range 65 90 c then c + 32 else c) s.

End PyStr.
Import PyStr.

(* ===================================================================== *)
(** ** Exceptions and results *)
(* ===================================================================== *)

(** The subclasses of [DomainException] ([app/domain/exceptions/users.py]). *)
Inductive DomainClass : Type :=
| UsernameAlreadyExists
| EmailAlreadyExists
| UserNotFound
| UserDisabled
| InvalidEmailFormat
| InvalidUsernameFormat
| InvalidPasswordFormat
| InvalidCredentials
| EmailNotVerified
| InvalidPasswordException.

(** The class attributes [message] ([UserMessages]) and [status_code]. *)
Definition class_message (c : DomainClass) : pystr :=
  match c with
  | UsernameAlreadyExists => py "Пользователь с таким именем уже существует"
  | EmailAlreadyExists => py "Пользователь с таким email уже существует"
  | UserNotFound => py "Пользователь не найден"
  | UserDisabled => py "Учетная запись пользователя отключена"
  | InvalidEmailFormat => py "Неверный формат адреса электронной почты"
  | InvalidUsernameFormat => py "Имя пользователя должно быть от 4 до 10 символов"
  | InvalidPasswordFormat => py "Пароль слишком слабый или короткий"
  | InvalidCredentials => py "Неверные учетные данные"
  | EmailNotVerified => py "Пожалуйста, подтвердите ваш email перед входом."
  | InvalidPasswordException => py "Текущий пароль указан неверно"
  end.

Definition class_status_code (c : DomainClass) : Z :=
  match c with
  | UsernameAlreadyExists | EmailAlreadyExists => 409
  | UserNotFound => 404
  | UserDisabled | EmailNotVerified | InvalidPasswordException => 403
  | InvalidCredentials => 401
  | InvalidEmailFormat | InvalidUsernameFormat | InvalidPasswordFormat => 400
  end%Z.

(** An instance of a [DomainException] subclass. *)
Record DomainException : Type := mkDomainException {
  exc_class : DomainClass;
  message : pystr;
  status_code : Z
}.

(** [DomainException.__init__]: a truthy argument overrides the class
    attribute. *)
Definition DomainException_init (c : DomainClass)
    (msg : option pystr) (code : option Z) : DomainException :=
  {| exc_class := c;
     message := match msg with
                | Some m => if truthy m then m else class_message c
                | None => class_message c
                end;
     status_code := match code with
                    | Some k => if (k =? 0)%Z then class_status_code c else k
                    | None => class_status_code c
                    end |}.

(** [e.orig] of a SQLAlchemy error: the driver's exception, which is an
    asyncpg [UniqueViolationError] or something else; [str(e.orig)] is its
    text. *)
Inductive DriverError : Type :=
| UniqueViolationError (text : pystr)
| OtherDriverError (text : pystr).

Definition driver_str (d : DriverError) : pystr :=
  match d with UniqueViolationError t | OtherDriverError t => t end.

(** The subclasses of [jwt.PyJWTError] a decode can raise. *)
Inductive PyJWTErrorClass : Type :=
| ExpiredSignatureError
| InvalidSignatureError
| DecodeError
| InvalidAlgorithmError
| OtherInvalidTokenError.

(** What a call can raise. *)
Inductive Exn : Type :=
| EDomain (e : DomainException)
| EValueError (msg : pystr)
| EIntegrityError (orig : DriverError)        (* sqlalchemy.exc.IntegrityError *)
| ESQLAlchemyError (text : pystr)             (* any other SQLAlchemyError *)
| EPyJWTError (c : PyJWTErrorClass)
| EOther (name : pystr).

Inductive Res (A : Type) : Type :=
| Ok (a : A)
| Raise (e : Exn).
Arguments Ok {A} a.
Arguments Raise {A} e.

(** [raise C()] and [raise C(message=m)]. *)
Definition raise_domain {A} (c : DomainClass) : Res A :=
  Raise (EDomain (DomainException_init c None None)).

Definition raise_domain_msg {A} (c : DomainClass) (m : pystr) : Res A :=
  Raise (EDomain (DomainException_init c (Some m) None)).

Definition is_ok {A} (r : Res A) : bool :=
  match r with Ok _ => true | Raise _ => false end.

(** The class of a raised domain exception, if the result is one. *)
Definition raised_class {A} (r : Res A) : option DomainClass :=
  match r with
  | Raise (EDomain e) => Some (exc_class e)
  | _ => None
  end.

(* ===================================================================== *)
(** ** Value objects ([app/domain/value_objects], [app/domain/entities]) *)
(* ===================================================================== *)

Module Password.

Record t : Type := mk { value : pystr }.

Definition msg_length : pystr := py "Пароль должен быть минимум 8 символов".
Definition msg_upper : pystr := py "Пароль должен содержать заглавную букву".
Definition msg_lower : pystr := py "Пароль должен содержать строчную букву".
Definition msg_digit : pystr := py "Пароль должен содержать цифру".

(** [Password(value)]: the dataclass constructor followed by
    [__post_init__]. *)
Definition new (value : pystr) : Res t :=
  if (len value <? 8)%nat then
    raise_domain_msg InvalidPasswordFormat msg_length
  else if negb (search_class 65 90 value) then     (* [A-Z] *)
    raise_domain_msg InvalidPasswordFormat msg_upper
  else if negb (search_class 97 122 value) then    (* [a-z] *)
    raise_domain_msg InvalidPasswordFormat msg_lower
  else if negb (search_class 48 57 value) then     (* [0-9] *)
    raise_domain_msg InvalidPasswordFormat msg_digit
  else Ok (mk value).

End Password.

Definition UUID : Type := N.
Definition datetime : Type := Z.

(** [UserIdentity]: a frozen dataclass validated by [__post_init__]. *)
Record UserIdentity : Type := mkUserIdentity {
  id_username : pystr;
  id_email : pystr
}.

Definition UserIdentity_new (username email : pystr) : Res UserIdentity :=
  if negb (truthy username)
     || negb ((4 <=? len username)%nat && (len username <=? 10)%nat)
  then raise_domain InvalidUsernameFormat
  else if negb (contains (py "@") email)
  then raise_domain InvalidEmailFormat
  else Ok (mkUserIdentity username email).

(** [UserSecurity]: a frozen dataclass, no validation. *)
Record UserSecurity : Type := mkUserSecurity {
  sec_hashed_password : pystr;
  sec_disabled : bool;
  sec_is_email_verified : bool
}.

(* ===================================================================== *)
(** ** The account entity ([app/domain/entities/user.py]) *)
(* ===================================================================== *)

(** Each mutating method takes the reading [now] of
    [datetime.now(timezone.utc)] it makes and returns the new state of the
    object; every method raises before its first assignment, so a raise
    leaves the object as it was. *)
Module User.

Record t : Type := mk {
  _id : UUID;
  _identity : UserIdentity;
  _security : UserSecurity;
  _created_at : datetime;
  _updated_at : datetime
}.

(** Properties. *)
Definition id (self : t) : UUID := _id self.
Definition username (self : t) : pystr := id_username (_identity self).
Definition email (self : t) : pystr := id_email (_identity self).
Definition hashed_password (self : t) : pystr :=
  sec_hashed_password (_security self).
Definition disabled (self : t) : bool := sec_disabled (_security self).
Definition is_email_verified (self : t) : bool :=
  sec_is_email_verified (_security self).
Definition created_at (self : t) : datetime := _created_at self.
Definition updated_at (self : t) : datetime := _updated_at self.
Definition is_enabled (self : t) : bool := negb (disabled self).

(** [User.create]: [new_id] is the value of [uuid.uuid4()], [now1] and
    [now2] the two clock readings. *)
Definition create (username email : pystr)
    (new_id : UUID) (now1 now2 : datetime) : Res t :=
  match UserIdentity_new username email with
  | Raise e => Raise e
  | Ok identity =>
    let security := mkUserSecurity [] false false in
    Ok (mk new_id identity security now1 now2)
  end.

Definition set_password (hashed_password : pystr) (now : datetime)
    (self : t) : Res t :=
  if negb (truthy hashed_password)
  then Raise (EValueError (py "Хеш пароля не может быть пустым"))
  else
    let sec := _security self in
    Ok (mk (_id self) (_identity self)
           (mkUserSecurity hashed_password (sec_disabled sec)
                           (sec_is_email_verified sec))
           (_created_at self) now).

Definition change_username (new_username : pystr) (now : datetime)
    (self : t) : Res t :=
  match UserIdentity_new new_username (email self) with
  | Raise e => Raise e
  | Ok identity =>
    Ok (mk (_id self) identity (_security self) (_created_at self) now)
  end.

Definition change_email (new_email : pystr) (now : datetime)
    (self : t) : Res t :=
  match UserIdentity_new (username self) new_email with
  | Raise e => Raise e
  | Ok identity =>
    let sec := _security self in
    Ok (mk (_id self) identity
           (mkUserSecurity (sec_hashed_password sec) (sec_disabled sec) false)
           (_created_at self) now)
  end.

Definition enable (now : datetime) (self : t) : Res t :=
  let sec := _security self in
  Ok (mk (_id self) (_identity self)
         (mkUserSecurity (sec_hashed_password sec) false
                         (sec_is_email_verified sec))
         (_created_at self) now).

Definition disable (now : datetime) (self : t) : Res t :=
  let sec := _security self in
  Ok (mk (_id self) (_identity self)
         (mkUserSecurity (sec_hashed_password sec) true
                         (sec_is_email_verified sec))
         (_created_at self) now).

Definition mark_email_as_verified (now : datetime) (self : t) : Res t :=
  let sec := _security self in
  Ok (mk (_id self) (_identity self)
         (mkUserSecurity (sec_hashed_password sec) (sec_disabled sec) true)
         (_created_at self) now).

(** What [UserIdentity.__post_init__] guarantees of every identity that
    exists: the dataclass is frozen and has no other constructor. *)
Definition identity_valid (self : t) : Prop :=
  UserIdentity_new (username self) (email self) = Ok (_identity self).

End User.

(* ===================================================================== *)
(** ** Effects: state and exceptions *)
(* ===================================================================== *)

(** A computation over a state [S] that returns or raises; the state it
    leaves is kept in both cases. *)
Definition M (S A : Type) : Type := S -> Res A * S.

Definition ret {S A : Type} (a : A) : M S A := fun s => (Ok a, s).

Definition throw {S A : Type} (e : Exn) : M S A := fun s => (Raise e, s).

Definition bind {S A B : Type} (c : M S A) (k : A -> M S B) : M S B :=
  fun s =>
    match c s with
    | (Ok a, s') => k a s'
    | (Raise e, s') => (Raise e, s')
    end.

Definition liftRes {S A : Type} (r : Res A) : M S A := fun s => (r, s).

(** [try: c except Exception as e: h e]. *)
Definition try_except {S A : Type} (c : M S A) (h : Exn -> M S A) : M S A :=
  fun s =>
    match c s with
    | (Ok a, s') => (Ok a, s')
    | (Raise e, s') => h e s'
    end.

Notation "'let*' x ':=' c 'in' k" := (bind c (fun x => k))
  (at level 10, x name, c at level 100, k at level 200).

(** The world a use case runs in: the session behind the repository and
    the number of oracle readings made so far. *)
Record World (DB : Type) : Type := mkWorld {
  w_db : DB;
  w_tick : nat
}.
Arguments mkWorld {DB} _ _.
Arguments w_db {DB} _.
Arguments w_tick {DB} _.

(* ===================================================================== *)
(** ** External collaborators *)
(* ===================================================================== *)

(** [UserRepository] ([app/domain/interfaces/user_repository.py]): the
    abstract store. A call acts on the session [DB] and may raise. *)
Class UserRepository (DB : Type) : Type := {
  get_by_id : UUID -> M DB (option User.t);
  get_by_username : pystr -> M DB (option User.t);
  get_by_email : pystr -> M DB (option User.t);
  create_user : User.t -> M DB unit;
  update_user : User.t -> M DB unit
}.

(** A value of a token's payload. *)
Inductive Claim : Type :=
| CStr (s : pystr)
| CUUID (u : UUID)
| CDatetime (t : datetime).

(** [app/core/config.py], the JWT part. *)
Record Settings : Type := mkSettings {
  SECRET_KEY : pystr;
  ALGORITHM : pystr;
  ACCESS_TOKEN_EXPIRE_MINUTES : Z
}.

(** The libraries and the environment the code calls into. *)
Class Libraries : Type := {
  (** [pwdlib]: [PasswordHash.verify(password, hash)]. *)
  password_hash_verify : pystr -> pystr -> Res bool;
  (** [pwdlib]: [PasswordHash.hash(password)], with the salt drawn at
      reading [n]. *)
  password_hash_hash : nat -> pystr -> Res pystr;
  (** [jwt.encode(payload, key, algorithm)]. *)
  jwt_encode : gmap pystr Claim -> pystr -> pystr -> Res pystr;
  (** [jwt.decode(token, key, algorithms)] run at clock reading [now]. *)
  jwt_decode : datetime -> pystr -> pystr -> list pystr
               -> Res (gmap pystr Claim);
  (** [str.lower] and [str(uuid)]. *)
  str_lower : pystr -> pystr;
  uuid_str : UUID -> pystr;
  (** The oracles: the clock and [uuid.uuid4()] at reading [n]. *)
  clock : nat -> datetime;
  uuid_source : nat -> UUID;
  settings : Settings
}.

(** One oracle reading. *)
Definition tick {DB A : Type} (f : nat -> A) : M (World DB) A :=
  fun w => (Ok (f (w_tick w)), mkWorld (w_db w) (S (w_tick w))).

(** A repository call inside the world. *)
Definition on_db {DB A : Type} (c : M DB A) : M (World DB) A :=
  fun w => let (r, db') := c (w_db w) in (r, mkWorld db' (w_tick w)).

(** A method call on an entity held in a local variable: the clock is
    read only when the method gets to its last statement. *)
Definition call {DB : Type} `{Libraries} (method : datetime -> User.t -> Res User.t)
    (self : User.t) : M (World DB) User.t :=
  fun w =>
    match method (clock (w_tick w)) self with
    | Ok self' => (Ok self', mkWorld (w_db w) (S (w_tick w)))
    | Raise e => (Raise e, w)
    end.

(** A method call on the entity the caller passed in: the object is part
    of the state, and is replaced only when the method returns. *)
Definition call_self {DB : Type} `{Libraries}
    (method : datetime -> User.t -> Res User.t) : M (User.t * World DB) unit :=
  fun '(self, w) =>
    match method (clock (w_tick w)) self with
    | Ok self' => (Ok tt, (self', mkWorld (w_db w) (S (w_tick w))))
    | Raise e => (Raise e, (self, w))
    end.

(** The entity passed in, as it is now. *)
Definition self_now {DB : Type} : M (User.t * World DB) User.t :=
  fun s => (Ok (fst s), s).

(** A computation on the world run beside the entity passed in. *)
Definition in_world {DB A : Type} (c : M (World DB) A) : M (User.t * World DB) A :=
  fun '(self, w) => let (r, w') := c w in (r, (self, w')).

(* ===================================================================== *)
(** ** Credential functions ([app/shared/security.py]) *)
(* ===================================================================== *)

Section Security.
Context `{Libraries}.

Definition verify_password (plain_password hashed_password : pystr)
    : Res bool :=
  password_hash_verify plain_password hashed_password.

Definition get_password_hash {DB : Type} (password : pystr) : M (World DB) pystr :=
  fun w => (password_hash_hash (w_tick w) password,
            mkWorld (w_db w) (S (w_tick w))).

Definition minutes (m : Z) : Z := (m * 60000000)%Z.

Definition create_access_token {DB : Type} (data : gmap pystr Claim)
    : M (World DB) pystr :=
  let to_encode := data in
  let to_encode :=
    match to_encode !! py "sub" with
    | Some (CUUID u) => <[py "sub" := CStr (uuid_str u)]> to_encode
    | _ => to_encode
    end in
  let* now := tick clock in
  let expire := (now + minutes (ACCESS_TOKEN_EXPIRE_MINUTES settings))%Z in
  let to_encode := <[py "exp" := CDatetime expire]> to_encode in
  liftRes (jwt_encode to_encode (SECRET_KEY settings) (ALGORITHM settings)).

(** [decode_access_token]: [None] is the result for an invalid token. *)
Definition decode_access_token {DB : Type} (token : pystr)
    : M (World DB) (option Claim) :=
  try_except
    (let* now := tick clock in
     let* payload :=
       liftRes (jwt_decode now token (SECRET_KEY settings)
                           [ALGORITHM settings]) in
     ret (payload !! py "sub"))
    (fun e =>
       match e with
       | EPyJWTError _ => ret None
       | _ => throw e
       end).

End Security.

(* ===================================================================== *)
(** ** Use cases ([app/use_cases]) *)
(* ===================================================================== *)

(** [BaseUseCase.execute]: both handlers log and re-raise. *)
Definition execute {S A : Type} (_run : M S A) : M S A :=
  try_except _run (fun e => throw e).

(** Truthiness of [User | None]: the class defines neither [__bool__] nor
    [__len__], so every [User] is truthy. *)
Definition found (r : option User.t) : bool :=
  match r with Some _ => true | None => false end.

Module RegisterUserUseCase.
Section Run.
Context {DB : Type} `{UserRepository DB} `{Libraries}.

Record RegisterUserDTO : Type := mkDTO {
  username : pystr;
  email : pystr;
  password : pystr
}.

(** [User.create] with its readings: the identity is validated before
    [uuid4] and the clock are read. *)
Definition User_create (username email : pystr) : M (World DB) User.t :=
  fun w =>
    let n := w_tick w in
    match User.create username email
                      (uuid_source n) (clock (S n)) (clock (S (S n))) with
    | Ok u => (Ok u, mkWorld (w_db w) (S (S (S n))))
    | Raise e => (Raise e, w)
    end.

Definition _run (dto : RegisterUserDTO) : M (World DB) User.t :=
  let* by_name := on_db (get_by_username (username dto)) in
  if found by_name then throw (EDomain (DomainException_init
                                          UsernameAlreadyExists None None))
  else
  let* by_mail := on_db (get_by_email (email dto)) in
  if found by_mail then throw (EDomain (DomainException_init
                                          EmailAlreadyExists None None))
  else
  let* new_user := User_create (username dto) (email dto) in
  let* password := liftRes (Password.new (password dto)) in
  let* hashed := get_password_hash (Password.value password) in
  let* new_user := call (User.set_password hashed) new_user in
  let* _ :=
    try_except (on_db (create_user new_user))
      (fun e =>
         match e with
         | EIntegrityError orig =>
           match orig with
           | UniqueViolationError _ =>
             let error_msg := str_lower (driver_str orig) in
             if contains (py "ix_users_username") error_msg
             then throw (EDomain (DomainException_init
                                    UsernameAlreadyExists None None))
             else if contains (py "ix_users_email") error_msg
             then throw (EDomain (DomainException_init
                                    EmailAlreadyExists None None))
             else throw e
           | _ => throw e
           end
         | _ => throw e
         end) in
  ret new_user.

End Run.
End RegisterUserUseCase.

Module AuthenticateUserUseCase.
Section Run.
Context {DB : Type} `{UserRepository DB} `{Libraries}.

Definition _run (username password : pystr)
    : M (World DB) (gmap pystr pystr) :=
  let* user := on_db (get_by_username username) in
  (* [not user or not verify_password(...)]: the right operand is
     evaluated only for a user that was found *)
  match user with
  | None => throw (EDomain (DomainException_init InvalidCredentials None None))
  | Some user =>
    let* verified :=
      liftRes (verify_password password (User.hashed_password user)) in
    if negb verified
    then throw (EDomain (DomainException_init InvalidCredentials None None))
    else
    if negb (User.is_enabled user)
    then throw (EDomain (DomainException_init UserDisabled None None))
    else
    let token_data : gmap pystr Claim :=
      {[ py "sub" := CStr (uuid_str (User.id user));
         py "username" := CStr (User.username user);
         py "email" := CStr (User.email user) ]} in
    let* token := create_access_token token_data in
    ret ({[ py "access_token" := token;
            py "token_type" := py "bearer" ]} : gmap pystr pystr)
  end.

End Run.
End AuthenticateUserUseCase.

Module UpdateUserUseCase.
Section Run.
Context {DB : Type} `{UserRepository DB} `{Libraries}.

Record UpdateUserDTO : Type := mkDTO {
  current_password : pystr;
  username : option pystr;
  email : option pystr;
  new_password : option pystr
}.

Definition differs (new : option pystr) (current : pystr) : option pystr :=
  match new with
  | Some v => if negb (PyStr.eqb v current) then Some v else None
  | None => None
  end.

(** The body of [_run], on the state made of the [user] object passed in
    and the world; it returns that object. *)
Definition body (dto : UpdateUserDTO) : M (User.t * World DB) User.t :=
  let* user := self_now in
  let* ok := liftRes (verify_password (current_password dto)
                                      (User.hashed_password user)) in
  if negb ok
  then throw (EDomain (DomainException_init InvalidPasswordException
                                            None None))
  else
  let has_changes := false in
  let* has_changes :=
    match differs (username dto) (User.username user) with
    | Some new_username =>
      let* taken := in_world (on_db (get_by_username new_username)) in
      if found taken
      then throw (EDomain (DomainException_init UsernameAlreadyExists
                                                None None))
      else
      let* _ := call_self (User.change_username new_username) in
      ret true
    | None => ret has_changes
    end in
  let* user := self_now in
  let* has_changes :=
    match differs (email dto) (User.email user) with
    | Some new_email =>
      let* taken := in_world (on_db (get_by_email new_email)) in
      if found taken
      then throw (EDomain (DomainException_init EmailAlreadyExists
                                                None None))
      else
      let* _ := call_self (User.change_email new_email) in
      ret true
    | None => ret has_changes
    end in
  let* has_changes :=
    match new_password dto with
    | Some new_pw =>
      let* password := liftRes (Password.new new_pw) in
      let* hashed := in_world (get_password_hash (Password.value password)) in
      let* _ := call_self (User.set_password hashed) in
      ret true
    | None => ret has_changes
    end in
  let* _ :=
    if has_changes : bool
    then (let* user := self_now in in_world (on_db (update_user user)))
    else ret tt in
  self_now.

Definition _run (user : User.t) (dto : UpdateUserDTO) (w : World DB)
    : Res User.t * (User.t * World DB) :=
  body dto (user, w).

End Run.
End UpdateUserUseCase.

(* ===================================================================== *)
(** ** Stand-ins for the collaborators *)
(* ===================================================================== *)

(** Executable instances of the two interfaces, on which the properties
    below are run on concrete inputs. *)
Module Fake.

(** An in-memory table seen through a session: lookups read [rows]; an
    insert is checked against [rows] and against [concurrent], the rows a
    concurrent transaction committed after this session's lookups. *)
Record Session : Type := mkSession {
  rows : list User.t;
  concurrent : list User.t
}.

Definition find_by {K : Type} (key : User.t -> K) (eqb : K -> K -> bool)
    (k : K) (l : list User.t) : option User.t :=
  List.find (fun u => eqb (key u) k) l.

Definition unique_violation (index : pystr) : Exn :=
  EIntegrityError (UniqueViolationError
    (py "duplicate key value violates unique constraint " ++ index)).

Definition insert (u : User.t) : M Session unit :=
  fun s =>
    let all := rows s ++ concurrent s in
    if found (find_by User.username PyStr.eqb (User.username u) all)
    then (Raise (unique_violation (py "IX_USERS_USERNAME")), s)
    else if found (find_by User.email PyStr.eqb (User.email u) all)
    then (Raise (unique_violation (py "ix_users_email")), s)
    else if (255 <? len (User.email u))%nat
    then (Raise (ESQLAlchemyError
                   (py "value too long for type character varying(255)")), s)
    else (Ok tt, mkSession (rows s ++ [u]) (concurrent s)).

Definition replace (u : User.t) : M Session unit :=
  fun s =>
    (Ok tt,
     mkSession (map (fun r => if (User.id r =? User.id u) then u else r)
                    (rows s))
               (concurrent s)).

#[global] Instance repository : UserRepository Session := {
  get_by_id i := fun s => (Ok (find_by User.id N.eqb i (rows s)), s);
  get_by_username n :=
    fun s => (Ok (find_by User.username PyStr.eqb n (rows s)), s);
  get_by_email e :=
    fun s => (Ok (find_by User.email PyStr.eqb e (rows s)), s);
  create_user := insert;
  update_user := replace
}.

(** A hasher that prefixes the password; a token that is its subject. *)
Definition toy_hash (p : pystr) : pystr := py "$toy$" ++ p.

Definition toy_decode (now : datetime) (token key : pystr)
    (algorithms : list pystr) : Res (gmap pystr Claim) :=
  if PyStr.eqb token (py "expired") then Raise (EPyJWTError ExpiredSignatureError)
  else if PyStr.eqb token (py "tampered")
  then Raise (EPyJWTError InvalidSignatureError)
  else if startswith (py "sub=") token
  then Ok {[ py "sub" := CStr (skipn 4 token) ]}
  else if PyStr.eqb token (py "anonymous") then Ok ∅
  else Raise (EPyJWTError DecodeError).

Definition toy_encode (payload : gmap pystr Claim) (key alg : pystr)
    : Res pystr :=
  match payload !! py "sub" with
  | Some (CStr s) => Ok (py "sub=" ++ s)
  | _ => Ok (py "anonymous")
  end.

Definition decimal (n : N) : pystr := [48 + n mod 10].

#[global] Instance libraries : Libraries := {
  password_hash_verify p h := Ok (PyStr.eqb h (toy_hash p));
  password_hash_hash _ p := Ok (toy_hash p);
  jwt_encode := toy_encode;
  jwt_decode := toy_decode;
  str_lower := ascii_lower;
  uuid_str := decimal;
  clock n := (1000 + Z.of_nat n)%Z;
  uuid_source n := N.of_nat n;
  settings := mkSettings (py "secret") (py "HS256") 60
}.

Definition empty_world : World Session := mkWorld (mkSession [] []) 0.

(** The account of the specification's scenario. *)
Definition alice : User.t :=
  User.mk 7 (mkUserIdentity (py "alice") (py "a@x.com"))
          (mkUserSecurity (toy_hash (py "Passw0rd")) false true) 10%Z 20%Z.

Definition alice_disabled : User.t :=
  User.mk 7 (mkUserIdentity (py "alice") (py "a@x.com"))
          (mkUserSecurity (toy_hash (py "Passw0rd")) true true) 10%Z 30%Z.

Definition world_of (l : list User.t) : World Session :=
  mkWorld (mkSession l []) 0.

(** A session whose lookups miss a row committed concurrently. *)
Definition raced_world (l : list User.t) : World Session :=
  mkWorld (mkSession [] l) 0.

End Fake.

(* ===================================================================== *)
(** ** More use cases ([app/use_cases/profile]) *)
(* ===================================================================== *)

Module GetUserUseCase.
Section Run.
Context {DB : Type} `{UserRepository DB} `{Libraries}.

Definition _run (id : UUID) : M (World DB) User.t :=
  let* user := on_db (get_by_id id) in
  match user with
  | None => throw (EDomain (DomainException_init UserNotFound None None))
  | Some user =>
    if User.disabled user
    then throw (EDomain (DomainException_init UserDisabled None None))
    else ret user
  end.

End Run.
End GetUserUseCase.

Module DisableUserUseCase.
Section Run.
Context {DB : Type} `{UserRepository DB} `{Libraries}.

Definition _run (user_id : UUID) : M (World DB) User.t :=
  let* user := on_db (get_by_id user_id) in
  match user with
  | None => throw (EDomain (DomainException_init UserNotFound None None))
  | Some user =>
    let* user := call User.disable user in
    let* _ := on_db (update_user user) in
    ret user
  end.

End Run.
End DisableUserUseCase.

Module EnableUserUseCase.
Section Run.
Context {DB : Type} `{UserRepository DB} `{Libraries}.

Definition _run (user_id : UUID) : M (World DB) User.t :=
  let* user := on_db (get_by_id user_id) in
  match user with
  | None => throw (EDomain (DomainException_init UserNotFound None None))
  | Some user =>
    let* user := call User.enable user in
    let* _ := on_db (update_user user) in
    ret user
  end.

End Run.
End EnableUserUseCase.

(* ===================================================================== *)
(** ** Current user ([app/api/v1/dependencies.py]) *)
(* ===================================================================== *)

Module Dependencies.
Section Run.
Context {DB : Type} `{UserRepository DB} `{Libraries}.

(** [UUID(s)]: [None] stands for the [ValueError] of a badly formed
    string. *)
Variable UUID_of_str : pystr -> option UUID.

(** [InvalidToken()] and [AuthUserNotFound()] ([app/core/exceptions]),
    by class name. *)
Definition InvalidToken : Exn := EOther (py "InvalidToken").
Definition AuthUserNotFound : Exn := EOther (py "AuthUserNotFound").

Definition get_current_user (token : pystr) : M (World DB) User.t :=
  let* user_id_str := decode_access_token token in
  match user_id_str with
  | None => throw InvalidToken
  | Some (CStr s) =>
    if negb (truthy s) then throw InvalidToken
    else
    match UUID_of_str s with
    | None => throw InvalidToken
    | Some user_id =>
      try_except
        (execute (GetUserUseCase._run user_id))
        (fun e =>
           match e with
           | EDomain d =>
             match exc_class d with
             | UserNotFound => throw AuthUserNotFound
             | _ => throw e
             end
           | _ => throw e
           end)
    end
  (* a [sub] that is not a [str]: [UUID(...)] fails on [hex.replace] *)
  | Some (CUUID _) => throw (EOther (py "AttributeError"))
  | Some (CDatetime _) => throw (EOther (py "TypeError"))
  end.

Definition get_verified_user (current_user : User.t) : Res User.t :=
  if negb (User.is_email_verified current_user)
  then Raise (EDomain (DomainException_init EmailNotVerified None None))
  else Ok current_user.

End Run.
End Dependencies.

(* ===================================================================== *)
(** ** Persistence ([app/infrastructure]) *)
(* ===================================================================== *)

(** [UserORM]: a row of the users table, as the mapped object holds it. *)
Record UserORM : Type := mkUserORM {
  orm_id : UUID;
  orm_username : pystr;
  orm_hashed_password : pystr;
  orm_email : pystr;
  orm_disabled : bool;
  orm_is_email_verified : bool;
  orm_created_at : datetime;
  orm_updated_at : datetime
}.

Module UserMapper.

Definition to_domain (orm : UserORM) : Res User.t :=
  match UserIdentity_new (orm_username orm) (orm_email orm) with
  | Raise e => Raise e
  | Ok identity =>
    Ok (User.mk (orm_id orm) identity
                (mkUserSecurity (orm_hashed_password orm) (orm_disabled orm)
                                (orm_is_email_verified orm))
                (orm_created_at orm) (orm_updated_at orm))
  end.

Definition to_orm (user : User.t) : UserORM :=
  {| orm_id := User.id user;
     orm_username := User.username user;
     orm_email := User.email user;
     orm_hashed_password := User.hashed_password user;
     orm_disabled := User.disabled user;
     orm_is_email_verified := User.is_email_verified user;
     orm_created_at := User.created_at user;
     orm_updated_at := User.updated_at user |}.

(** The state of the mapped object after the six assignments. *)
Definition update_orm_from_domain (orm : UserORM) (user : User.t) : UserORM :=
  {| orm_id := orm_id orm;
     orm_username := User.username user;
     orm_email := User.email user;
     orm_hashed_password := User.hashed_password user;
     orm_disabled := User.disabled user;
     orm_is_email_verified := User.is_email_verified user;
     orm_created_at := orm_created_at orm;
     orm_updated_at := User.updated_at user |}.

End UserMapper.

(** The part of SQLAlchemy's [AsyncSession] the repository and the unit
    of work call. [session_assign i row] is the effect, on the session, of
    assigning the attributes of the mapped object of primary key [i]. *)
Class AsyncSession (S : Type) : Type := {
  session_get : UUID -> M S (option UserORM);
  session_scalar_by_username : pystr -> M S (option UserORM);
  session_scalar_by_email : pystr -> M S (option UserORM);
  session_add : UserORM -> M S unit;
  session_assign : UUID -> UserORM -> S -> S;
  session_commit : M S unit;
  session_rollback : M S unit;
  session_close : M S unit
}.

(** [UserRepository] of [app/infrastructure/repositories/user.py]; each
    [except SQLAlchemyError] logs and re-raises. *)
Module UserRepositoryImpl.
Section Impl.
Context {S : Type} `{AsyncSession S}.

Definition mapped (orm_user : option UserORM) : M S (option User.t) :=
  match orm_user with
  | Some orm =>
    let* user := liftRes (UserMapper.to_domain orm) in ret (Some user)
  | None => ret None
  end.

Definition get_by_id (id : UUID) : M S (option User.t) :=
  let* orm_user := session_get id in mapped orm_user.

Definition get_by_username (username : pystr) : M S (option User.t) :=
  let* orm_user := session_scalar_by_username username in mapped orm_user.

Definition get_by_email (email : pystr) : M S (option User.t) :=
  let* orm_user := session_scalar_by_email email in mapped orm_user.

Definition create_user (user : User.t) : M S unit :=
  session_add (UserMapper.to_orm user).

Definition update_user (user : User.t) : M S unit :=
  let* orm_user := session_get (User.id user) in
  match orm_user with
  | Some orm =>
    fun s =>
      (Ok tt,
       session_assign (orm_id orm)
                      (UserMapper.update_orm_from_domain orm user) s)
  | None => ret tt
  end.

(** The implementation as an instance of the interface. *)
Definition repository : UserRepository S :=
  Build_UserRepository S get_by_id get_by_username get_by_email
                       create_user update_user.

End Impl.
End UserRepositoryImpl.

(** [SqlAlchemyUnitOfWork] ([app/infrastructure/database/unit_of_work.py])
    and [get_uow] ([app/core/dependencies.py]). *)
Module SqlAlchemyUnitOfWork.
Section Impl.
Context {S : Type} `{AsyncSession S}.

Definition commit : M S unit := session_commit.
Definition rollback : M S unit := session_rollback.

(** [try: body finally: final]: [final] runs in both cases, and an
    exception of [final] replaces the outcome of [body]. *)
Definition try_finally {A : Type} (body : M S A) (final : M S unit) : M S A :=
  fun s =>
    let (r, s1) := body s in
    match final s1 with
    | (Ok _, s2) => (r, s2)
    | (Raise e, s2) => (Raise e, s2)
    end.

(** [__aexit__]: [exc] is the exception leaving the block, if any. The
    method returns [None], so it never suppresses [exc]. *)
Definition __aexit__ (exc : option Exn) : M S unit :=
  try_finally
    (try_except
       (match exc with
        | Some _ => rollback
        | None => commit
        end)
       (fun e => throw e))
    session_close.

(** [async with uow: body], the session being the one [__aenter__]
    made. *)
Definition async_with {A : Type} (body : M S A) : M S A :=
  fun s =>
    match body s with
    | (Ok a, s1) =>
      match __aexit__ None s1 with
      | (Ok _, s2) => (Ok a, s2)
      | (Raise e, s2) => (Raise e, s2)
      end
    | (Raise e, s1) =>
      match __aexit__ (Some e) s1 with
      | (Ok _, s2) => (Raise e, s2)
      | (Raise e', s2) => (Raise e', s2)
      end
    end.

End Impl.
End SqlAlchemyUnitOfWork.

(* ===================================================================== *)
(** ** Sequences of entity operations *)
(* ===================================================================== *)

(** The mutating methods of [User], as data, to speak of every sequence
    of calls on one account. *)
Inductive UserOp : Type :=
| OpSetPassword (hashed_password : pystr)
| OpChangeUsername (new_username : pystr)
| OpChangeEmail (new_email : pystr)
| OpEnable
| OpDisable
| OpMarkEmailAsVerified.

Definition apply_op (op : UserOp) (now : datetime) (self : User.t)
    : Res User.t :=
  match op with
  | OpSetPassword h => User.set_password h now self
  | OpChangeUsername n => User.change_username n now self
  | OpChangeEmail e => User.change_email e now self
  | OpEnable => User.enable now self
  | OpDisable => User.disable now self
  | OpMarkEmailAsVerified => User.mark_email_as_verified now self
  end.

(** The calls of [ops] in order, each at its clock reading; a call that
    raises leaves the account as it was, and the next calls still run (the
    caller caught the exception). *)
Fixpoint apply_ops (ops : list (UserOp * datetime)) (self : User.t)
    : User.t :=
  match ops with
  | [] => self
  | (op, now) :: rest =>
    match apply_op op now self with
    | Ok self' => apply_ops rest self'
    | Raise _ => apply_ops rest self
    end
  end.

(* ===================================================================== *)
(** ** Stand-ins for the session *)
(* ===================================================================== *)

Module FakeSession.

(** A session that holds the rows and records the transaction calls made
    on it; [fail_commit] makes [commit] raise. *)
Inductive Event : Type := Committed | RolledBack | Closed.

Record t : Type := mk {
  table : list UserORM;
  events : list Event;
  fail_commit : bool
}.

Definition find_row (p : UserORM -> bool) : M t (option UserORM) :=
  fun s => (Ok (List.find p (table s)), s).

Definition log (ev : Event) : M t unit :=
  fun s => (Ok tt, mk (table s) (events s ++ [ev]) (fail_commit s)).

Definition session : AsyncSession t := {|
  session_get i := find_row (fun r => orm_id r =? i);
  session_scalar_by_username n :=
    find_row (fun r => PyStr.eqb (orm_username r) n);
  session_scalar_by_email e :=
    find_row (fun r => PyStr.eqb (orm_email r) e);
  session_add row :=
    fun s => (Ok tt, mk (table s ++ [row]) (events s) (fail_commit s));
  session_assign i row :=
    fun s => mk (map (fun r => if orm_id r =? i then row else r) (table s))
                (events s) (fail_commit s);
  session_commit :=
    fun s => if fail_commit s
             then (Raise (ESQLAlchemyError (py "commit failed")), s)
             else log Committed s;
  session_rollback := log RolledBack;
  session_close := log Closed
|}.

Definition alice_row : UserORM := UserMapper.to_orm Fake.alice.

(** A row whose email the domain rules reject. *)
Definition corrupt_row : UserORM :=
  mkUserORM 9 (py "mallory") (py "$toy$x") (py "no-at-sign") false false
            1%Z 2%Z.

Definition fresh (rows : list UserORM) : t := mk rows [] false.

(** Libraries as in [Fake], but with a verifier that raises on a hash it
    does not recognise. *)
Definition strict_libraries : Libraries := {|
  password_hash_verify p h :=
    if startswith (py "$toy$") h then Ok (PyStr.eqb h (Fake.toy_hash p))
    else Raise (EOther (py "UnknownHashError"));
  password_hash_hash _ p := Ok (Fake.toy_hash p);
  jwt_encode := Fake.toy_encode;
  jwt_decode := Fake.toy_decode;
  str_lower := ascii_lower;
  uuid_str := Fake.decimal;
  clock n := (1000 + Z.of_nat n)%Z;
  uuid_source n := N.of_nat n;
  settings := mkSettings (py "secret") (py "HS256") 60
|}.

(** An account as [User.create] leaves it: no password hash yet. *)
Definition carol : User.t :=
  User.mk 5 (mkUserIdentity (py "carol") (py "c@x.com"))
          (mkUserSecurity [] false false) 13%Z 13%Z.

(** A second account. *)
Definition bobby : User.t :=
  User.mk 8 (mkUserIdentity (py "bobby") (py "b@x.com"))
          (mkUserSecurity (Fake.toy_hash (py "S3cretPass")) false false)
          11%Z 12%Z.

(** The inverse of [Fake.decimal] on one digit. *)
Definition parse_digit (s : pystr) : option UUID :=
  match s with
  | [c] => if in_range 48 57 c then Some (c - 48) else None
  | _ => None
  end.

End FakeSession.

(* ===================================================================== *)
(** ** One request *)
(* ===================================================================== *)

(** A request as [get_uow] and the routers run it: the unit of work is
    entered, the endpoint calls [execute] of a use case built on the
    repository of that unit of work, and the unit of work is left. [n] is
    the number of oracle readings made before the request. *)
Definition in_unit_of_work {S A : Type} `{AsyncSession S}
    (n : nat) (use_case : M (World S) A) : M S A :=
  SqlAlchemyUnitOfWork.async_with
    (fun s => let (r, w) := execute use_case (mkWorld s n) in (r, w_db w)).

(* ===================================================================== *)
(** ** Stand-ins that follow the libraries more closely *)
(* ===================================================================== *)

(** The whole seconds of an instant (instants are in microseconds); a
    token carries its expiry in whole seconds. *)
Definition whole_seconds (t : datetime) : datetime :=
  (t / 1000000 * 1000000)%Z.

Module Closer.

(** A session in the manner of SQLAlchemy: [add] only queues the row, and
    the unique indexes are checked when the transaction is committed,
    against the rows this session saw and the rows a concurrent
    transaction committed meanwhile. The driver's error reaches the caller
    wrapped by the dialect, with the text of the asyncpg error. *)
Record Session : Type := mkSession {
  visible : list UserORM;
  concurrent : list UserORM;
  pending : list UserORM;
  closed : bool
}.

Definition quoted (name : pystr) : pystr := [34] ++ name ++ [34].

Definition violation (index : pystr) : Exn :=
  EIntegrityError (OtherDriverError
    (py "<class 'asyncpg.exceptions.UniqueViolationError'>: "
     ++ py "duplicate key value violates unique constraint "
     ++ quoted index)).

Definition taken {K : Type} (key : UserORM -> K) (eqb : K -> K -> bool)
    (rows others : list UserORM) : bool :=
  existsb (fun r => existsb (fun o => eqb (key o) (key r)) others) rows.

Definition flush_and_commit : M Session unit :=
  fun s =>
    let stored := visible s ++ concurrent s in
    if taken orm_username PyStr.eqb (pending s) stored
    then (Raise (violation (py "ix_users_username")), s)
    else if taken orm_email PyStr.eqb (pending s) stored
    then (Raise (violation (py "ix_users_email")), s)
    else (Ok tt, mkSession (visible s ++ pending s) (concurrent s) []
                           (closed s)).

Definition session : AsyncSession Session := {|
  session_get i :=
    fun s => (Ok (List.find (fun r => orm_id r =? i) (visible s)), s);
  session_scalar_by_username n :=
    fun s => (Ok (List.find (fun r => PyStr.eqb (orm_username r) n)
                            (visible s)), s);
  session_scalar_by_email e :=
    fun s => (Ok (List.find (fun r => PyStr.eqb (orm_email r) e)
                            (visible s)), s);
  session_add row :=
    fun s => (Ok tt, mkSession (visible s) (concurrent s)
                               (pending s ++ [row]) (closed s));
  session_assign i row :=
    fun s => mkSession (map (fun r => if orm_id r =? i then row else r)
                            (visible s))
                       (concurrent s) (pending s) (closed s);
  session_commit := flush_and_commit;
  session_rollback :=
    fun s => (Ok tt, mkSession (visible s) (concurrent s) [] (closed s));
  session_close :=
    fun s => (Ok tt, mkSession (visible s) (concurrent s) (pending s) true)
|}.

(** A session in which a concurrent transaction has just committed
    [rows]. *)
Definition raced (rows : list UserORM) : Session := mkSession [] rows [] false.

(** A surrogate code point: [str.encode] raises [UnicodeEncodeError] on
    a string that holds one. *)
Definition surrogate (c : N) : bool := in_range 55296 57343 c.

(** A token is the expiry in seconds followed by the subject, every
    number written above the code points (as base64 keeps a token clear
    of the characters of its payload). *)
Definition armour : N := 1114112.

Definition encode (payload : gmap pystr Claim) (key alg : pystr)
    : Res pystr :=
  match payload !! py "sub", payload !! py "exp" with
  | Some (CStr s), Some (CDatetime t) =>
    Ok ((armour + Z.to_N (t / 1000000)) :: map (N.add armour) s)
  | _, _ => Raise (EOther (py "TypeError"))
  end.

(** [jwt.decode]: the string is encoded to bytes first, then parsed, then
    the expiry is compared with the clock; a token is expired when its
    expiry is not after [now]. *)
Definition decode (now : datetime) (token key : pystr)
    (algorithms : list pystr) : Res (gmap pystr Claim) :=
  if existsb surrogate token then Raise (EOther (py "UnicodeEncodeError"))
  else if negb (forallb (fun c => armour <=? c) token)
  then Raise (EPyJWTError DecodeError)
  else
    match token with
    | expiry :: body =>
      if (Z.of_N (expiry - armour) * 1000000 <=? now)%Z
      then Raise (EPyJWTError ExpiredSignatureError)
      else Ok {[ py "sub" := CStr (map (fun c => c - armour) body) ]}
    | [] => Raise (EPyJWTError DecodeError)
    end.

(** A verifier that raises on a hash it does not recognise, as
    [PasswordHash.verify] does. *)
Definition verify (p h : pystr) : Res bool :=
  if startswith (py "$toy$") h then Ok (PyStr.eqb h (Fake.toy_hash p))
  else Raise (EOther (py "UnknownHashError")).

Definition libraries : Libraries := {|
  password_hash_verify := verify;
  password_hash_hash _ p := Ok (Fake.toy_hash p);
  jwt_encode := encode;
  jwt_decode := decode;
  str_lower := ascii_lower;
  uuid_str := Fake.decimal;
  clock n := (1000 + Z.of_nat n)%Z;
  uuid_source n := N.of_nat n;
  settings := mkSettings (py "secret") (py "HS256") 60
|}.

End Closer.

(* ===================================================================== *)
(** ** Vocabulary of the properties *)
(* ===================================================================== *)

(** A code point of a class, as a proposition. *)
Definition has_class (lo hi : N) (s : pystr) : Prop :=
  exists c, In c s /\ lo <= c <= hi.

(** The character classes of the password rules: the letters A..Z, the
    letters a..z and the digits 0..9. *)
Definition has_uppercase : pystr -> Prop := has_class 65 90.
Definition has_lowercase : pystr -> Prop := has_class 97 122.
Definition has_digit : pystr -> Prop := has_class 48 57.

Definition strong_password (s : pystr) : Prop :=
  (8 <= len s)%nat /\ has_uppercase s /\ has_lowercase s /\ has_digit s.

(** The email rule of [UserIdentity]: the character "@" occurs. *)
Definition has_at (email : pystr) : Prop := In 64 email.

(** The exception [raise C()] raises. *)
Definition raised {A : Type} (c : DomainClass) : Res A :=
  Raise (EDomain (DomainException_init c None None)).

(** A uniqueness violation whose text names one of the two unique
    indexes of the users table. *)
Definition recognised_unique_violation `{Libraries} (e : Exn) : Prop :=
  exists text,
    e = EIntegrityError (UniqueViolationError text)
    /\ (contains (py "ix_users_username") (str_lower text) = true
        \/ contains (py "ix_users_email") (str_lower text) = true).

(** The round trip the JWT library offers for the tokens of this service:
    under HS256, a payload whose keys are among "sub", "username", "email"
    and "exp", signed with the configured key, is decoded, at any instant
    before the whole second of its "exp", to a payload with the same
    "sub". (The library keeps "exp" in whole seconds and rejects a token
    whose "exp" is not after the clock.) *)
Definition jwt_sub_round_trip `{Libraries} : Prop :=
  ALGORITHM settings = py "HS256" ->
  forall (payload : gmap pystr Claim) (s tok : pystr) (t now : datetime),
    payload !! py "sub" = Some (CStr s) ->
    payload !! py "exp" = Some (CDatetime t) ->
    (forall k, k <> py "sub" -> k <> py "exp" -> k <> py "username" ->
               k <> py "email" -> payload !! k = None) ->
    (0 <= now < whole_seconds t)%Z ->
    jwt_encode payload (SECRET_KEY settings) (ALGORITHM settings) = Ok tok ->
    exists payload',
      jwt_decode now tok (SECRET_KEY settings) [ALGORITHM settings]
      = Ok payload'
      /\ payload' !! py "sub" = Some (CStr s).

(** The character classes as Unicode names them, on the basic Latin,
    Latin-1, Greek and Cyrillic blocks: what "an uppercase letter", "a
    lowercase letter" and "a digit" say of a character when no alphabet is
    named. *)
Definition unicode_uppercase (c : N) : bool :=
  in_range 65 90 c
  || (in_range 192 222 c && negb (c =? 215))
  || (in_range 913 939 c && negb (c =? 930))
  || in_range 1024 1071 c.

Definition unicode_lowercase (c : N) : bool :=
  in_range 97 122 c
  || (in_range 223 255 c && negb (c =? 247))
  || in_range 945 969 c
  || in_range 1072 1119 c.

Definition unicode_digit (c : N) : bool :=
  in_range 48 57 c || in_range 1632 1641 c.

(** A password with 8 characters or more, an uppercase letter, a
    lowercase letter and a digit, in that wide sense. *)
Definition strong_in_any_alphabet (s : pystr) : Prop :=
  (8 <= len s)%nat
  /\ (exists c, In c s /\ unicode_uppercase c = true)
  /\ (exists c, In c s /\ unicode_lowercase c = true)
  /\ (exists c, In c s /\ unicode_digit c = true).

(* ===================================================================== *)
(** ** Properties of strings *)
(* ===================================================================== *)

Lemma pystr_eqb_eq (a b : pystr) : PyStr.eqb a b = true <-> a = b.
Proof.
  revert b; induction a as [|x a IH]; intros [|y b]; simpl;
    try (split; [discriminate | congruence]); try tauto.
  rewrite andb_true_iff, N.eqb_eq, IH. split.
  - intros [-> ->]; reflexivity.
  - intros E; inversion E; auto.
Qed.

Lemma pystr_eqb_refl (a : pystr) : PyStr.eqb a a = true.
Proof. apply pystr_eqb_eq; reflexivity. Qed.

Example py_ascii : py "a@x.com" = [97; 64; 120; 46; 99; 111; 109].
Proof. reflexivity. Qed.

Example py_cyrillic_len : len (py "Пароль123") = 9%nat.
Proof. reflexivity. Qed.

Lemma search_class_spec (lo hi : N) (s : pystr) :
  search_class lo hi s = true <-> has_class lo hi s.
Proof.
  unfold search_class, has_class, in_range. rewrite existsb_exists.
  split; intros [c [Hin Hc]]; exists c; split; auto.
  - apply andb_true_iff in Hc as [H1 H2].
    apply N.leb_le in H1, H2. lia.
  - apply andb_true_iff; split; apply N.leb_le; lia.
Qed.

Lemma search_class_false (lo hi : N) (s : pystr) :
  search_class lo hi s = false <-> ~ has_class lo hi s.
Proof.
  rewrite <- search_class_spec. destruct (search_class lo hi s).
  - split; [discriminate | intros Hn; exfalso; apply Hn; reflexivity].
  - split; [intros _; discriminate | reflexivity].
Qed.

(* ===================================================================== *)
(** ** Properties of the value objects *)
(* ===================================================================== *)

Lemma Password_new_weak_or_strong (s : pystr) :
  strong_password s \/ exists e, Password.new s = Raise e.
Proof.
  unfold Password.new, strong_password, has_uppercase, has_lowercase,
    has_digit.
  destruct (Nat.ltb_spec (len s) 8) as [Hl|Hl]; [right; eexists; reflexivity|].
  destruct (search_class 65 90 s) eqn:Hu; cbn [negb];
    [|right; eexists; reflexivity].
  destruct (search_class 97 122 s) eqn:Hw; cbn [negb];
    [|right; eexists; reflexivity].
  destruct (search_class 48 57 s) eqn:Hd; cbn [negb];
    [|right; eexists; reflexivity].
  left. rewrite search_class_spec in Hu, Hw, Hd. auto.
Qed.

Lemma Password_new_ok (s : pystr) :
  strong_password s -> Password.new s = Ok (Password.mk s).
Proof.
  intros (Hl & Hu & Hw & Hd). unfold Password.new.
  apply search_class_spec in Hu, Hw, Hd.
  destruct (Nat.ltb_spec (len s) 8); [lia|].
  rewrite Hu, Hw, Hd. reflexivity.
Qed.

(** C8. [Password(s)] succeeds, keeping [s], exactly when [s] has at
    least 8 characters and contains one of the letters A..Z, one of the
    letters a..z and one of the digits 0..9 (letters and digits outside
    ASCII do not count); otherwise it raises [InvalidPasswordFormat], with
    status 400, whose message is the message of the first rule violated,
    in the order length, uppercase, lowercase, digit. *)
Theorem Password_construction_ascii (s : pystr) :
  ((exists p, Password.new s = Ok p) <-> strong_password s)
  /\ (strong_password s -> Password.new s = Ok (Password.mk s))
  /\ ((len s < 8)%nat ->
      Password.new s
      = Raise (EDomain (mkDomainException InvalidPasswordFormat
                          (py "Пароль должен быть минимум 8 символов")
                          400)))
  /\ ((8 <= len s)%nat -> ~ has_uppercase s ->
      Password.new s
      = Raise (EDomain (mkDomainException InvalidPasswordFormat
                          (py "Пароль должен содержать заглавную букву")
                          400)))
  /\ ((8 <= len s)%nat -> has_uppercase s -> ~ has_lowercase s ->
      Password.new s
      = Raise (EDomain (mkDomainException InvalidPasswordFormat
                          (py "Пароль должен содержать строчную букву")
                          400)))
  /\ ((8 <= len s)%nat -> has_uppercase s -> has_lowercase s ->
      ~ has_digit s ->
      Password.new s
      = Raise (EDomain (mkDomainException InvalidPasswordFormat
                          (py "Пароль должен содержать цифру")
                          400))).
Proof.
  split; [split|].
  - intros [p Hp]. destruct (Password_new_weak_or_strong s) as [Hs|[e He]];
      [exact Hs | congruence].
  - intros Hs. exists (Password.mk s). apply Password_new_ok, Hs.
  - split; [apply Password_new_ok|].
    split; [|split; [|split]].
    + intros Hl. unfold Password.new.
      destruct (Nat.ltb_spec (len s) 8); [vm_compute; reflexivity | lia].
    + intros Hl Hu. unfold Password.new.
      destruct (Nat.ltb_spec (len s) 8); [lia|].
      apply search_class_false in Hu. rewrite Hu. vm_compute; reflexivity.
    + intros Hl Hu Hw. unfold Password.new.
      destruct (Nat.ltb_spec (len s) 8); [lia|].
      apply search_class_spec in Hu. apply search_class_false in Hw.
      rewrite Hu, Hw. vm_compute; reflexivity.
    + intros Hl Hu Hw Hd. unfold Password.new.
      destruct (Nat.ltb_spec (len s) 8); [lia|].
      apply search_class_spec in Hu, Hw. apply search_class_false in Hd.
      rewrite Hu, Hw, Hd. vm_compute; reflexivity.
Qed.

Lemma Password_construction_ascii_witness :
  Password.new (py "Passw0rd") = Ok (Password.mk (py "Passw0rd"))
  /\ Password.new (py "Ab1")
     = Raise (EDomain (mkDomainException InvalidPasswordFormat
                         (py "Пароль должен быть минимум 8 символов") 400))
  /\ Password.new (py "passw0rd")
     = Raise (EDomain (mkDomainException InvalidPasswordFormat
                         (py "Пароль должен содержать заглавную букву")
                         400))
  /\ Password.new (py "PASSW0RD")
     = Raise (EDomain (mkDomainException InvalidPasswordFormat
                         (py "Пароль должен содержать строчную букву")
                         400))
  /\ Password.new (py "Password")
     = Raise (EDomain (mkDomainException InvalidPasswordFormat
                         (py "Пароль должен содержать цифру") 400)).
Proof.
  assert (upper : forall s c, In c s -> 65 <= c <= 90 -> has_uppercase s)
    by (intros s c Hin Hc; exists c; auto).
  assert (lower : forall s c, In c s -> 97 <= c <= 122 -> has_lowercase s)
    by (intros s c Hin Hc; exists c; auto).
  assert (digit : forall s c, In c s -> 48 <= c <= 57 -> has_digit s)
    by (intros s c Hin Hc; exists c; auto).
  split; [|split; [|split; [|split]]].
  - apply (proj1 (proj2 (Password_construction_ascii (py "Passw0rd")))).
    split; [vm_compute; lia|].
    split; [apply (upper _ 80) | split; [apply (lower _ 97)
                                        | apply (digit _ 48)]];
      try (vm_compute; tauto); lia.
  - apply (proj1 (proj2 (proj2 (Password_construction_ascii (py "Ab1"))))).
    vm_compute; lia.
  - apply (proj1 (proj2 (proj2 (proj2
             (Password_construction_ascii (py "passw0rd")))))).
    + vm_compute; lia.
    + apply search_class_false. reflexivity.
  - apply (proj1 (proj2 (proj2 (proj2 (proj2
             (Password_construction_ascii (py "PASSW0RD"))))))).
    + vm_compute; lia.
    + apply (upper _ 80); [vm_compute; tauto | lia].
    + apply search_class_false. reflexivity.
  - apply (proj2 (proj2 (proj2 (proj2 (proj2
             (Password_construction_ascii (py "Password"))))))).
    + vm_compute; lia.
    + apply (upper _ 80); [vm_compute; tauto | lia].
    + apply (lower _ 97); [vm_compute; tauto | lia].
    + apply search_class_false. reflexivity.
Defined.

(** C8, as the claim states it, fails on a password whose letters are not
    ASCII: "Пароль123" has nine characters, the uppercase letter "П",
    lowercase letters and digits, and [Password] rejects it. *)
Lemma Password_any_alphabet_counterexample :
  strong_in_any_alphabet (py "Пароль123")
  /\ ~ (exists p, Password.new (py "Пароль123") = Ok p).
Proof.
  split.
  - split; [vm_compute; lia|].
    split; [exists 1055 | split; [exists 1072 | exists 49]];
      (split; [vm_compute; tauto | reflexivity]).
  - intros [p Hp]. vm_compute in Hp. discriminate Hp.
Qed.

(** Letters outside A..Z and a..z do not count for the letter rules: a
    password of Cyrillic letters and digits is rejected by the uppercase
    rule. *)
Example Password_cyrillic_letters :
  Password.new (py "Пароль123")
  = raise_domain_msg InvalidPasswordFormat Password.msg_upper.
Proof. reflexivity. Qed.

Lemma startswith_singleton (c : N) (s : pystr) :
  startswith [c] s = true <-> exists s', s = c :: s'.
Proof.
  destruct s as [|y s]; simpl.
  - split; [discriminate | intros [s' E]; discriminate E].
  - rewrite andb_true_r, N.eqb_eq. split.
    + intros ->. exists s; reflexivity.
    + intros [s' E]. inversion E; reflexivity.
Qed.

Lemma contains_singleton (c : N) (s : pystr) :
  contains [c] s = true <-> In c s.
Proof.
  induction s as [|y s IH].
  - simpl. split; [discriminate | tauto].
  - change (contains [c] (y :: s))
      with (startswith [c] (y :: s) || contains [c] s).
    rewrite orb_true_iff, IH, startswith_singleton. simpl. split.
    + intros [[s' E]|Hin]; [inversion E; auto | auto].
    + intros [->|Hin]; [left; exists s; reflexivity | auto].
Qed.

Lemma contains_at (email : pystr) :
  contains (py "@") email = true <-> has_at email.
Proof. exact (contains_singleton 64 email). Qed.

Lemma UserIdentity_new_ok (username email : pystr) :
  (4 <= len username <= 10)%nat -> has_at email ->
  UserIdentity_new username email = Ok (mkUserIdentity username email).
Proof.
  intros Hlen Hat. unfold UserIdentity_new.
  assert (Ht : truthy username = true).
  { destruct username; [simpl in Hlen; lia | reflexivity]. }
  assert (E1 : (4 <=? len username)%nat = true) by (apply Nat.leb_le; lia).
  assert (E2 : (len username <=? 10)%nat = true) by (apply Nat.leb_le; lia).
  apply contains_at in Hat. rewrite Ht, E1, E2, Hat. reflexivity.
Qed.

Lemma UserIdentity_new_bad_username (username email : pystr) :
  (len username < 4 \/ 10 < len username)%nat ->
  UserIdentity_new username email = raise_domain InvalidUsernameFormat.
Proof.
  intros Hlen. unfold UserIdentity_new.
  assert (E : ((4 <=? len username)%nat && (len username <=? 10)%nat)
              = false).
  { apply andb_false_iff. destruct Hlen as [Hlen|Hlen].
    - left; apply Nat.leb_gt; lia.
    - right; apply Nat.leb_gt; lia. }
  rewrite E. rewrite orb_true_r. reflexivity.
Qed.

(** An identity that exists satisfies both rules. *)
Lemma identity_valid_inv (u : User.t) :
  User.identity_valid u ->
  (4 <= len (User.username u) <= 10)%nat /\ has_at (User.email u).
Proof.
  unfold User.identity_valid, UserIdentity_new. intros Hv.
  destruct (4 <=? len (User.username u))%nat eqn:E1.
  2:{ rewrite orb_true_r in Hv. discriminate Hv. }
  destruct (len (User.username u) <=? 10)%nat eqn:E2.
  2:{ rewrite orb_true_r in Hv. discriminate Hv. }
  destruct (truthy (User.username u)); [|discriminate Hv].
  destruct (contains (py "@") (User.email u)) eqn:Hat; [|discriminate Hv].
  apply Nat.leb_le in E1, E2.
  split; [lia | apply contains_at, Hat].
Qed.

(* ===================================================================== *)
(** ** Properties of the account entity *)
(* ===================================================================== *)

(** C9. [User.create] raises [InvalidUsernameFormat] for every username
    whose length is outside 4..10, and returns an account with that
    username and email for every username whose length is inside 4..10
    and every email that contains "@". *)
Theorem User_create_username_length
    (username email : pystr) (new_id : UUID) (now1 now2 : datetime) :
  ((len username < 4 \/ 10 < len username)%nat ->
   User.create username email new_id now1 now2
   = raise_domain InvalidUsernameFormat)
  /\ ((4 <= len username <= 10)%nat -> has_at email ->
      exists u, User.create username email new_id now1 now2 = Ok u
                /\ User.username u = username /\ User.email u = email).
Proof.
  split.
  - intros Hlen. unfold User.create.
    rewrite (UserIdentity_new_bad_username _ _ Hlen). reflexivity.
  - intros Hlen Hat. unfold User.create.
    rewrite (UserIdentity_new_ok _ _ Hlen Hat).
    eexists; split; [reflexivity | split; reflexivity].
Qed.

Lemma User_create_username_length_witness :
  User.create (py "bob") (py "a@x.com") 1 0%Z 0%Z
  = raise_domain InvalidUsernameFormat
  /\ User.create (py "elevenchars") (py "a@x.com") 1 0%Z 0%Z
     = raise_domain InvalidUsernameFormat
  /\ exists u, User.create (py "alice") (py "a@x.com") 1 0%Z 0%Z = Ok u
               /\ User.username u = py "alice"
               /\ User.email u = py "a@x.com".
Proof.
  split; [|split].
  - apply (proj1 (User_create_username_length
                    (py "bob") (py "a@x.com") 1 0%Z 0%Z)).
    vm_compute; lia.
  - apply (proj1 (User_create_username_length
                    (py "elevenchars") (py "a@x.com") 1 0%Z 0%Z)).
    vm_compute; lia.
  - apply (proj2 (User_create_username_length
                    (py "alice") (py "a@x.com") 1 0%Z 0%Z)).
    + vm_compute; lia.
    + vm_compute; tauto.
Defined.

Lemma change_email_ok (u : User.t) (new_email : pystr) (now : datetime) :
  User.identity_valid u -> has_at new_email ->
  User.change_email new_email now u
  = Ok (User.mk (User._id u)
                (mkUserIdentity (User.username u) new_email)
                (mkUserSecurity (User.hashed_password u) (User.disabled u)
                                false)
                (User._created_at u) now).
Proof.
  intros Hv Hat. destruct (identity_valid_inv u Hv) as [Hlen _].
  unfold User.change_email.
  rewrite (UserIdentity_new_ok _ _ Hlen Hat). reflexivity.
Qed.

(** C4. On every account, whatever its verification flag, [change_email]
    with an email that passes the identity check (the account's current
    email included) returns the account with [is_email_verified] false,
    the new email and [updated_at] set to the clock reading; a second
    [change_email] with the same email leaves [is_email_verified] false. *)
Theorem change_email_resets_verification
    (u : User.t) (new_email : pystr) (now now' : datetime) :
  User.identity_valid u ->
  new_email = User.email u \/ has_at new_email ->
  exists u1 u2,
    User.change_email new_email now u = Ok u1
    /\ User.is_email_verified u1 = false
    /\ User.email u1 = new_email
    /\ User.updated_at u1 = now
    /\ User.change_email new_email now' u1 = Ok u2
    /\ User.is_email_verified u2 = false
    /\ User.email u2 = new_email
    /\ User.updated_at u2 = now'.
Proof.
  intros Hv Hnew.
  assert (Hat : has_at new_email).
  { destruct Hnew as [->|Hat]; [apply identity_valid_inv, Hv | exact Hat]. }
  destruct (identity_valid_inv u Hv) as [Hlen _].
  pose (u1 := User.mk (User._id u)
                (mkUserIdentity (User.username u) new_email)
                (mkUserSecurity (User.hashed_password u) (User.disabled u)
                                false)
                (User._created_at u) now).
  assert (Hv1 : User.identity_valid u1).
  { unfold User.identity_valid; cbn. apply UserIdentity_new_ok; assumption. }
  exists u1.
  exists (User.mk (User._id u1)
                  (mkUserIdentity (User.username u1) new_email)
                  (mkUserSecurity (User.hashed_password u1)
                                  (User.disabled u1) false)
                  (User._created_at u1) now').
  split; [apply (change_email_ok u new_email now Hv Hat)|].
  split; [reflexivity|]. split; [reflexivity|]. split; [reflexivity|].
  split; [apply (change_email_ok u1 new_email now' Hv1 Hat)|].
  split; [reflexivity | split; reflexivity].
Qed.

Lemma change_email_resets_verification_witness :
  exists u1 u2,
    User.change_email (py "a@x.com") 40%Z Fake.alice = Ok u1
    /\ User.is_email_verified u1 = false
    /\ User.email u1 = py "a@x.com"
    /\ User.updated_at u1 = 40%Z
    /\ User.change_email (py "a@x.com") 50%Z u1 = Ok u2
    /\ User.is_email_verified u2 = false
    /\ User.email u2 = py "a@x.com"
    /\ User.updated_at u2 = 50%Z.
Proof.
  apply (change_email_resets_verification Fake.alice (py "a@x.com")
                                          40%Z 50%Z).
  - reflexivity.
  - left; reflexivity.
Defined.

(** C10. On every account, [change_username] with a username of 4 to 10
    characters returns the account with the new username and [updated_at]
    set to the clock reading, and with the same email, password hash,
    disabled flag and email-verification flag (and the same id and
    creation time). *)
Theorem change_username_frame
    (u : User.t) (new_username : pystr) (now : datetime) :
  User.identity_valid u ->
  (4 <= len new_username <= 10)%nat ->
  exists u',
    User.change_username new_username now u = Ok u'
    /\ User.username u' = new_username
    /\ User.updated_at u' = now
    /\ User.email u' = User.email u
    /\ User.hashed_password u' = User.hashed_password u
    /\ User.disabled u' = User.disabled u
    /\ User.is_email_verified u' = User.is_email_verified u
    /\ User.id u' = User.id u
    /\ User.created_at u' = User.created_at u.
Proof.
  intros Hv Hlen. destruct (identity_valid_inv u Hv) as [_ Hat].
  unfold User.change_username.
  rewrite (UserIdentity_new_ok _ _ Hlen Hat).
  eexists; split; [reflexivity|]. repeat split.
Qed.

Lemma change_username_frame_witness :
  exists u',
    User.change_username (py "alicia") 40%Z Fake.alice = Ok u'
    /\ User.username u' = py "alicia"
    /\ User.updated_at u' = 40%Z
    /\ User.email u' = User.email Fake.alice
    /\ User.hashed_password u' = User.hashed_password Fake.alice
    /\ User.disabled u' = User.disabled Fake.alice
    /\ User.is_email_verified u' = User.is_email_verified Fake.alice
    /\ User.id u' = User.id Fake.alice
    /\ User.created_at u' = User.created_at Fake.alice.
Proof.
  apply (change_username_frame Fake.alice (py "alicia") 40%Z).
  - reflexivity.
  - vm_compute; lia.
Defined.

(* ===================================================================== *)
(** ** Properties of the credential functions *)
(* ===================================================================== *)

Section SecurityProperties.
Context {DB : Type} `{Libraries}.

(** [verify_password] adds nothing to the library call: it returns what
    [PasswordHash.verify] returns and raises what it raises. *)
Lemma verify_password_delegates (plain hashed : pystr) :
  verify_password plain hashed = password_hash_verify plain hashed.
Proof. reflexivity. Qed.

(** The three outcomes of [decode_access_token], by what [jwt.decode]
    does: the payload's "sub" when it accepts the token, [None] when it
    raises a [PyJWTError], and its own exception when it raises anything
    else. *)
Theorem decode_access_token_total (token : pystr) (w : World DB) :
  let attempt :=
    jwt_decode (clock (w_tick w)) token (SECRET_KEY settings)
               [ALGORITHM settings] in
  (forall payload, attempt = Ok payload ->
     fst (decode_access_token token w) = Ok (payload !! py "sub"))
  /\ (forall c, attempt = Raise (EPyJWTError c) ->
        fst (decode_access_token token w) = Ok None)
  /\ (forall e, fst (decode_access_token token w) = Raise e ->
        attempt = Raise e /\ forall c, e <> EPyJWTError c).
Proof.
  intros attempt. subst attempt.
  unfold decode_access_token, try_except, bind, tick, liftRes, ret, throw.
  cbn [w_tick w_db].
  destruct (jwt_decode (clock (w_tick w)) token (SECRET_KEY settings)
                       [ALGORITHM settings]) as [payload|e].
  - split; [|split].
    + intros p [= <-]. reflexivity.
    + intros c Hc; discriminate Hc.
    + intros e He; discriminate He.
  - split; [|split].
    + intros p Hp; discriminate Hp.
    + intros c [= ->]. reflexivity.
    + intros e' He'. destruct e; cbn in He'; try discriminate He';
        injection He' as <-; (split; [reflexivity | intros c Hc; discriminate Hc]).
Qed.



End SecurityProperties.

Lemma decode_access_token_total_witness :
  fst (decode_access_token (py "sub=7") Fake.empty_world)
  = Ok (Some (CStr (py "7")))
  /\ fst (decode_access_token (py "expired") Fake.empty_world) = Ok None
  /\ fst (decode_access_token (py "tampered") Fake.empty_world) = Ok None.
Proof.
  split; [|split].
  - etransitivity.
    + apply (proj1 (decode_access_token_total (py "sub=7") Fake.empty_world)
                   {[ py "sub" := CStr (py "7") ]}).
      vm_compute; reflexivity.
    + vm_compute; reflexivity.
  - apply (proj1 (proj2 (decode_access_token_total (py "expired")
                                                   Fake.empty_world))
                 ExpiredSignatureError).
    reflexivity.
  - apply (proj1 (proj2 (decode_access_token_total (py "tampered")
                                                   Fake.empty_world))
                 InvalidSignatureError).
    reflexivity.
Defined.




(* ===================================================================== *)
(** ** Properties of the use cases *)
(* ===================================================================== *)

Section AuthenticateProperties.
Context {DB : Type} `{UserRepository DB} `{Libraries}.
Import AuthenticateUserUseCase.

Lemma authenticate_unknown_user (username password : pystr)
    (w : World DB) (db' : DB) :
  get_by_username username (w_db w) = (Ok None, db') ->
  _run username password w = (raised InvalidCredentials, mkWorld db' (w_tick w)).
Proof.
  intros Hget. unfold _run, bind, on_db. rewrite Hget. reflexivity.
Qed.

Lemma authenticate_wrong_password (username password : pystr)
    (w : World DB) (db' : DB) (u : User.t) :
  get_by_username username (w_db w) = (Ok (Some u), db') ->
  verify_password password (User.hashed_password u) = Ok false ->
  _run username password w = (raised InvalidCredentials, mkWorld db' (w_tick w)).
Proof.
  intros Hget Hver. unfold _run, bind, on_db, liftRes.
  rewrite Hget, Hver. reflexivity.
Qed.

Lemma authenticate_disabled (username password : pystr)
    (w : World DB) (db' : DB) (u : User.t) :
  get_by_username username (w_db w) = (Ok (Some u), db') ->
  verify_password password (User.hashed_password u) = Ok true ->
  User.disabled u = true ->
  _run username password w = (raised UserDisabled, mkWorld db' (w_tick w)).
Proof.
  intros Hget Hver Hdis. unfold _run, bind, on_db, liftRes.
  rewrite Hget, Hver. unfold User.is_enabled. rewrite Hdis. reflexivity.
Qed.

(** C5. When the lookup by username finds no account, and when it finds
    one whose stored hash the password does not verify against,
    [AuthenticateUserUseCase._run] raises [InvalidCredentials] with the
    same message and status code: the two results are equal. *)
Theorem authenticate_same_error
    (username password : pystr) (w1 w2 : World DB) (db1 db2 : DB)
    (u : User.t) :
  get_by_username username (w_db w1) = (Ok None, db1) ->
  get_by_username username (w_db w2) = (Ok (Some u), db2) ->
  verify_password password (User.hashed_password u) = Ok false ->
  fst (_run username password w1) = raised InvalidCredentials
  /\ fst (_run username password w2) = raised InvalidCredentials
  /\ fst (_run username password w1) = fst (_run username password w2).
Proof.
  intros Hnone Hsome Hver.
  rewrite (authenticate_unknown_user _ password _ _ Hnone).
  rewrite (authenticate_wrong_password _ _ _ _ _ Hsome Hver).
  repeat split.
Qed.

(** C6. For an account whose [disabled] flag is set,
    [AuthenticateUserUseCase._run] raises [UserDisabled] when the password
    verifies against the stored hash, and [InvalidCredentials] when it
    does not: the flag is looked at only after the password check. *)
Theorem authenticate_disabled_after_password
    (username password : pystr) (w : World DB) (db' : DB) (u : User.t) :
  get_by_username username (w_db w) = (Ok (Some u), db') ->
  User.disabled u = true ->
  (verify_password password (User.hashed_password u) = Ok true ->
   fst (_run username password w) = raised UserDisabled)
  /\ (verify_password password (User.hashed_password u) = Ok false ->
      fst (_run username password w) = raised InvalidCredentials).
Proof.
  intros Hget Hdis. split; intros Hver.
  - rewrite (authenticate_disabled _ _ _ _ _ Hget Hver Hdis). reflexivity.
  - rewrite (authenticate_wrong_password _ _ _ _ _ Hget Hver). reflexivity.
Qed.

End AuthenticateProperties.

Lemma authenticate_same_error_witness :
  fst (AuthenticateUserUseCase._run (py "alice") (py "wrong")
                                    Fake.empty_world)
  = raised InvalidCredentials
  /\ fst (AuthenticateUserUseCase._run (py "alice") (py "wrong")
                                       (Fake.world_of [Fake.alice]))
     = raised InvalidCredentials
  /\ fst (AuthenticateUserUseCase._run (py "alice") (py "wrong")
                                       Fake.empty_world)
     = fst (AuthenticateUserUseCase._run (py "alice") (py "wrong")
                                         (Fake.world_of [Fake.alice])).
Proof.
  apply (authenticate_same_error (py "alice") (py "wrong")
           Fake.empty_world (Fake.world_of [Fake.alice])
           (Fake.mkSession [] []) (Fake.mkSession [Fake.alice] [])
           Fake.alice).
  - reflexivity.
  - reflexivity.
  - reflexivity.
Defined.

Lemma authenticate_disabled_after_password_witness :
  fst (AuthenticateUserUseCase._run (py "alice") (py "Passw0rd")
                                    (Fake.world_of [Fake.alice_disabled]))
  = raised UserDisabled
  /\ fst (AuthenticateUserUseCase._run (py "alice") (py "wrong")
                                       (Fake.world_of [Fake.alice_disabled]))
     = raised InvalidCredentials.
Proof.
  assert (Hget : get_by_username (py "alice")
                   (w_db (Fake.world_of [Fake.alice_disabled]))
                 = (Ok (Some Fake.alice_disabled),
                    Fake.mkSession [Fake.alice_disabled] []))
    by reflexivity.
  assert (Hdis : User.disabled Fake.alice_disabled = true) by reflexivity.
  split.
  - apply (proj1 (authenticate_disabled_after_password
                    (py "alice") (py "Passw0rd") _ _ _ Hget Hdis)).
    reflexivity.
  - apply (proj2 (authenticate_disabled_after_password
                    (py "alice") (py "wrong") _ _ _ Hget Hdis)).
    reflexivity.
Defined.

Section UpdateProperties.
Context {DB : Type} `{UserRepository DB} `{Libraries}.
Import UpdateUserUseCase.

(** C3. When [current_password] does not verify against the stored hash,
    [UpdateUserUseCase._run] raises [InvalidPasswordException], a class
    other than [InvalidCredentials], and leaves the account object
    (username, email, password hash, flags, timestamps) and the world
    (the store included) exactly as they were. *)
Theorem update_wrong_current_password
    (user : User.t) (dto : UpdateUserDTO) (w : World DB) :
  verify_password (current_password dto) (User.hashed_password user)
  = Ok false ->
  fst (_run user dto w) = raised InvalidPasswordException
  /\ raised_class (fst (_run user dto w)) <> Some InvalidCredentials
  /\ snd (_run user dto w) = (user, w).
Proof.
  intros Hver.
  assert (E : _run user dto w = (raised InvalidPasswordException, (user, w))).
  { unfold _run, body, bind, self_now, liftRes. cbn [fst].
    rewrite Hver. reflexivity. }
  rewrite E. split; [reflexivity | split; [discriminate | reflexivity]].
Qed.

End UpdateProperties.

Lemma update_wrong_current_password_witness :
  let dto := UpdateUserUseCase.mkDTO (py "wrong") (Some (py "alicia"))
                                     (Some (py "b@x.com"))
                                     (Some (py "N3wPassword")) in
  let w := Fake.world_of [Fake.alice] in
  fst (UpdateUserUseCase._run Fake.alice dto w)
  = raised InvalidPasswordException
  /\ raised_class (fst (UpdateUserUseCase._run Fake.alice dto w))
     <> Some InvalidCredentials
  /\ snd (UpdateUserUseCase._run Fake.alice dto w) = (Fake.alice, w).
Proof.
  intros dto w.
  apply (update_wrong_current_password Fake.alice dto w).
  reflexivity.
Defined.

Section RegisterProperties.
Context {DB : Type} `{UserRepository DB} `{Libraries}.
Import RegisterUserUseCase.

(** What [_run] does once [create_user] has raised [e]: the state reached
    by steps 1 to 4, then the handler. *)
Lemma register_reaches_create
    (dto : RegisterUserDTO) (w : World DB) (db1 db2 db3 : DB)
    (u0 u1 : User.t) (pw : Password.t) (hashed : pystr) (e : Exn) :
  get_by_username (username dto) (w_db w) = (Ok None, db1) ->
  get_by_email (email dto) db1 = (Ok None, db2) ->
  User.create (username dto) (email dto) (uuid_source (w_tick w))
              (clock (S (w_tick w))) (clock (S (S (w_tick w)))) = Ok u0 ->
  Password.new (password dto) = Ok pw ->
  password_hash_hash (S (S (S (w_tick w)))) (Password.value pw)
  = Ok hashed ->
  User.set_password hashed (clock (S (S (S (S (w_tick w)))))) u0 = Ok u1 ->
  create_user u1 db2 = (Raise e, db3) ->
  fst (_run dto w)
  = match e with
    | EIntegrityError (UniqueViolationError text) =>
      if contains (py "ix_users_username") (str_lower text)
      then raised UsernameAlreadyExists
      else if contains (py "ix_users_email") (str_lower text)
      then raised EmailAlreadyExists
      else Raise e
    | _ => Raise e
    end.
Proof.
  intros Hname Hmail Hcreate Hpw Hhash Hset Hins.
  unfold _run, bind, on_db. rewrite Hname. cbn [found w_db w_tick].
  rewrite Hmail. cbn [found w_db w_tick].
  unfold User_create. cbn [w_db w_tick]. rewrite Hcreate.
  unfold liftRes. rewrite Hpw.
  unfold get_password_hash. cbn [w_db w_tick]. rewrite Hhash.
  unfold call. cbn [w_db w_tick]. rewrite Hset.
  unfold try_except. cbn [w_db w_tick]. rewrite Hins.
  destruct e as [d|m|[text|text]|t|c|nm]; try reflexivity.
  cbn [driver_str].
  destruct (contains (py "ix_users_username") (str_lower text));
    [reflexivity|].
  destruct (contains (py "ix_users_email") (str_lower text)); reflexivity.
Qed.

(** The handler of step 5 taken alone, for a repository whose
    [create_user] raises: a [UniqueViolationError] whose text names the
    username index is re-raised as [UsernameAlreadyExists]; one whose text
    names the email index (and not the username index) as
    [EmailAlreadyExists]; every other exception leaves [_run]
    unchanged. *)
Theorem register_translates_unique_violation
    (dto : RegisterUserDTO) (w : World DB) (db1 db2 db3 : DB)
    (u0 u1 : User.t) (pw : Password.t) (hashed : pystr) (e : Exn) :
  get_by_username (username dto) (w_db w) = (Ok None, db1) ->
  get_by_email (email dto) db1 = (Ok None, db2) ->
  User.create (username dto) (email dto) (uuid_source (w_tick w))
              (clock (S (w_tick w))) (clock (S (S (w_tick w)))) = Ok u0 ->
  Password.new (password dto) = Ok pw ->
  password_hash_hash (S (S (S (w_tick w)))) (Password.value pw)
  = Ok hashed ->
  User.set_password hashed (clock (S (S (S (S (w_tick w)))))) u0 = Ok u1 ->
  create_user u1 db2 = (Raise e, db3) ->
  (forall text,
     e = EIntegrityError (UniqueViolationError text) ->
     contains (py "ix_users_username") (str_lower text) = true ->
     fst (_run dto w) = raised UsernameAlreadyExists)
  /\ (forall text,
        e = EIntegrityError (UniqueViolationError text) ->
        contains (py "ix_users_username") (str_lower text) = false ->
        contains (py "ix_users_email") (str_lower text) = true ->
        fst (_run dto w) = raised EmailAlreadyExists)
  /\ (~ recognised_unique_violation e -> fst (_run dto w) = Raise e).
Proof.
  intros Hname Hmail Hcreate Hpw Hhash Hset Hins.
  rewrite (register_reaches_create dto w db1 db2 db3 u0 u1 pw hashed e
             Hname Hmail Hcreate Hpw Hhash Hset Hins).
  split; [|split].
  - intros text -> Hu. rewrite Hu. reflexivity.
  - intros text -> Hu Hm. rewrite Hu, Hm. reflexivity.
  - intros Hnot. destruct e as [d|m|[text|text]|t|c|nm]; try reflexivity.
    destruct (contains (py "ix_users_username") (str_lower text)) eqn:Hu.
    { exfalso; apply Hnot; exists text; auto. }
    destruct (contains (py "ix_users_email") (str_lower text)) eqn:Hm.
    { exfalso; apply Hnot; exists text; auto. }
    reflexivity.
Qed.

End RegisterProperties.

Lemma register_translates_unique_violation_witness :
  let long_email := List.repeat 97 256 ++ py "@x.com" in
  fst (RegisterUserUseCase._run
         (RegisterUserUseCase.mkDTO (py "alice") (py "b@x.com")
                                    (py "Passw0rd"))
         (Fake.raced_world [Fake.alice]))
  = raised UsernameAlreadyExists
  /\ fst (RegisterUserUseCase._run
            (RegisterUserUseCase.mkDTO (py "bobby") (py "a@x.com")
                                       (py "Passw0rd"))
            (Fake.raced_world [Fake.alice]))
     = raised EmailAlreadyExists
  /\ fst (RegisterUserUseCase._run
            (RegisterUserUseCase.mkDTO (py "carol") long_email
                                       (py "Passw0rd"))
            Fake.empty_world)
     = Raise (ESQLAlchemyError
                (py "value too long for type character varying(255)")).
Proof.
  intros long_email. split; [|split].
  - edestruct (register_translates_unique_violation
                 (RegisterUserUseCase.mkDTO (py "alice") (py "b@x.com")
                                            (py "Passw0rd"))
                 (Fake.raced_world [Fake.alice])) as (Hu & _ & _);
      [reflexivity .. |].
    apply (Hu _ eq_refl). vm_compute; reflexivity.
  - edestruct (register_translates_unique_violation
                 (RegisterUserUseCase.mkDTO (py "bobby") (py "a@x.com")
                                            (py "Passw0rd"))
                 (Fake.raced_world [Fake.alice])) as (_ & Hm & _);
      [reflexivity .. |].
    apply (Hm _ eq_refl); vm_compute; reflexivity.
  - edestruct (register_translates_unique_violation
                 (RegisterUserUseCase.mkDTO (py "carol") long_email
                                            (py "Passw0rd"))
                 Fake.empty_world) as (_ & _ & Ho);
      [reflexivity .. |].
    apply Ho. intros (text & Htext & _). discriminate Htext.
Defined.

(* ===================================================================== *)
(** ** The scenarios of the specification, run on the stand-ins *)
(* ===================================================================== *)

Example scenario_register :
  exists u,
    fst (RegisterUserUseCase._run
           (RegisterUserUseCase.mkDTO (py "alice") (py "a@x.com")
                                      (py "Passw0rd"))
           Fake.empty_world) = Ok u
    /\ User.is_enabled u = true
    /\ User.is_email_verified u = false
    /\ User.hashed_password u = Fake.toy_hash (py "Passw0rd").
Proof. eexists; repeat split; vm_compute; reflexivity. Qed.

Example scenario_authenticate :
  is_ok (fst (AuthenticateUserUseCase._run (py "alice") (py "Passw0rd")
                (Fake.world_of [Fake.alice]))) = true
  /\ fst (AuthenticateUserUseCase._run (py "alice") (py "wrong")
            (Fake.world_of [Fake.alice]))
     = raised InvalidCredentials
  /\ fst (AuthenticateUserUseCase._run (py "alice") (py "Passw0rd")
            (Fake.world_of [Fake.alice_disabled]))
     = raised UserDisabled.
Proof. repeat split; vm_compute; reflexivity. Qed.

Example scenario_update_email :
  exists u,
    fst (UpdateUserUseCase._run Fake.alice
           (UpdateUserUseCase.mkDTO (py "Passw0rd") None
                                    (Some (py "b@x.com")) None)
           (Fake.world_of [Fake.alice])) = Ok u
    /\ User.is_email_verified Fake.alice = true
    /\ User.email u = py "b@x.com"
    /\ User.is_email_verified u = false.
Proof. eexists; repeat split; vm_compute; reflexivity. Qed.

(* ===================================================================== *)
(** ** More properties of the account entity *)
(* ===================================================================== *)

(** X1. [set_password] raises [ValueError] on the empty hash; on any other
    hash it replaces the hash and [updated_at] and nothing else. *)
Theorem set_password_contract
    (u : User.t) (hashed : pystr) (now : datetime) :
  User.set_password [] now u
  = Raise (EValueError (py "Хеш пароля не может быть пустым"))
  /\ (hashed <> [] ->
      exists u',
        User.set_password hashed now u = Ok u'
        /\ User.hashed_password u' = hashed
        /\ User.updated_at u' = now
        /\ User._identity u' = User._identity u
        /\ User.disabled u' = User.disabled u
        /\ User.is_email_verified u' = User.is_email_verified u
        /\ User.id u' = User.id u
        /\ User.created_at u' = User.created_at u).
Proof.
  split; [reflexivity|].
  intros Hne. destruct hashed as [|c rest]; [congruence|].
  eexists; split; [reflexivity|]. repeat split.
Qed.

Lemma set_password_contract_witness :
  exists u',
    User.set_password (py "$toy$N3wPassword") 40%Z Fake.alice = Ok u'
    /\ User.hashed_password u' = py "$toy$N3wPassword"
    /\ User.updated_at u' = 40%Z
    /\ User._identity u' = User._identity Fake.alice
    /\ User.disabled u' = User.disabled Fake.alice
    /\ User.is_email_verified u' = User.is_email_verified Fake.alice
    /\ User.id u' = User.id Fake.alice
    /\ User.created_at u' = User.created_at Fake.alice.
Proof.
  apply (proj2 (set_password_contract Fake.alice (py "$toy$N3wPassword")
                                      40%Z)).
  vm_compute; discriminate.
Defined.

(** X2. [disable] and [enable] always succeed, and only the last of two
    such calls counts: after a [disable], a second [disable] or an
    [enable] gives what it would have given on the original account. *)
Theorem disable_enable_last_wins (u : User.t) (n1 n2 : datetime) :
  exists u1 u2,
    User.disable n1 u = Ok u1 /\ User.is_enabled u1 = false
    /\ User.enable n1 u = Ok u2 /\ User.is_enabled u2 = true
    /\ User.disable n2 u1 = User.disable n2 u
    /\ User.enable n2 u1 = User.enable n2 u
    /\ User.disable n2 u2 = User.disable n2 u
    /\ User.enable n2 u2 = User.enable n2 u.
Proof.
  eexists; eexists.
  split; [reflexivity|]. split; [reflexivity|].
  split; [reflexivity|]. repeat split.
Qed.

Lemma apply_op_frame (op : UserOp) (now : datetime) (u u' : User.t) :
  apply_op op now u = Ok u' ->
  User.id u' = User.id u /\ User.created_at u' = User.created_at u.
Proof.
  destruct op; cbn [apply_op];
    unfold User.set_password, User.change_username, User.change_email,
           User.enable, User.disable, User.mark_email_as_verified.
  - destruct (negb (truthy hashed_password)); [discriminate|].
    intros [= <-]; split; reflexivity.
  - destruct (UserIdentity_new _ _); [|discriminate].
    intros [= <-]; split; reflexivity.
  - destruct (UserIdentity_new _ _); [|discriminate].
    intros [= <-]; split; reflexivity.
  - intros [= <-]; split; reflexivity.
  - intros [= <-]; split; reflexivity.
  - intros [= <-]; split; reflexivity.
Qed.

(** X3. No sequence of method calls changes the id or the creation time
    of an account. *)
Theorem apply_ops_keeps_id (ops : list (UserOp * datetime)) (u : User.t) :
  User.id (apply_ops ops u) = User.id u
  /\ User.created_at (apply_ops ops u) = User.created_at u.
Proof.
  revert u; induction ops as [|[op now] rest IH]; intros u.
  - split; reflexivity.
  - cbn [apply_ops]. destruct (apply_op op now u) as [u'|e] eqn:Hop.
    + destruct (apply_op_frame _ _ _ _ Hop) as [Hid Hcr].
      destruct (IH u') as [IHid IHcr]. split; congruence.
    + apply IH.
Qed.

Lemma identity_valid_of_new (u : User.t) (username email : pystr) :
  UserIdentity_new username email = Ok (User._identity u) ->
  User.identity_valid u.
Proof.
  intros Hnew. unfold User.identity_valid.
  assert (E : User._identity u = mkUserIdentity username email).
  { unfold UserIdentity_new in Hnew.
    destruct (_ || _); [discriminate|].
    destruct (negb _); [discriminate|]. congruence. }
  unfold User.username, User.email. rewrite E. cbn. rewrite <- E. exact Hnew.
Qed.

Lemma apply_op_identity_valid (op : UserOp) (now : datetime)
    (u u' : User.t) :
  User.identity_valid u -> apply_op op now u = Ok u' ->
  User.identity_valid u'.
Proof.
  intros Hv. destruct op; cbn [apply_op];
    unfold User.set_password, User.change_username, User.change_email,
           User.enable, User.disable, User.mark_email_as_verified.
  - destruct (negb (truthy hashed_password)); [discriminate|].
    intros [= <-]; exact Hv.
  - destruct (UserIdentity_new _ _) as [i|] eqn:Hi; [|discriminate].
    intros [= <-]. eapply identity_valid_of_new; exact Hi.
  - destruct (UserIdentity_new _ _) as [i|] eqn:Hi; [|discriminate].
    intros [= <-]. eapply identity_valid_of_new; exact Hi.
  - intros [= <-]; exact Hv.
  - intros [= <-]; exact Hv.
  - intros [= <-]; exact Hv.
Qed.

(** X4. An account made by [User.create], after any sequence of method
    calls (failed ones included), still has a username of 4 to 10
    characters and an email that contains "@". *)
Theorem created_account_stays_valid
    (username email : pystr) (new_id : UUID) (now1 now2 : datetime)
    (u : User.t) (ops : list (UserOp * datetime)) :
  User.create username email new_id now1 now2 = Ok u ->
  (4 <= len (User.username (apply_ops ops u)) <= 10)%nat
  /\ has_at (User.email (apply_ops ops u)).
Proof.
  intros Hc. apply identity_valid_inv.
  assert (Hv : User.identity_valid u).
  { unfold User.create in Hc.
    destruct (UserIdentity_new username email) as [i|] eqn:Hi;
      [|discriminate].
    injection Hc as <-. eapply identity_valid_of_new. exact Hi. }
  clear Hc. revert u Hv.
  induction ops as [|[op now] rest IH]; intros u Hv; [exact Hv|].
  cbn [apply_ops]. destruct (apply_op op now u) as [u'|e] eqn:Hop.
  - apply IH. eapply apply_op_identity_valid; eauto.
  - apply IH, Hv.
Qed.

Lemma created_account_stays_valid_witness :
  let ops := [(OpChangeUsername (py "al"), 5%Z);
              (OpChangeEmail (py "nowhere"), 6%Z);
              (OpChangeUsername (py "alicia"), 7%Z);
              (OpDisable, 8%Z)] in
  let u := User.mk 1 (mkUserIdentity (py "alice") (py "a@x.com"))
                   (mkUserSecurity [] false false) 0%Z 0%Z in
  (4 <= len (User.username (apply_ops ops u)) <= 10)%nat
  /\ has_at (User.email (apply_ops ops u)).
Proof.
  intros ops u.
  apply (created_account_stays_valid (py "alice") (py "a@x.com") 1 0%Z 0%Z
                                     u ops).
  reflexivity.
Defined.

Lemma apply_op_fields (op : UserOp) (now : datetime) (u u' : User.t) :
  apply_op op now u = Ok u' ->
  (op <> OpMarkEmailAsVerified ->
   User.is_email_verified u' = true -> User.is_email_verified u = true)
  /\ ((forall h, op <> OpSetPassword h) ->
      User.hashed_password u' = User.hashed_password u)
  /\ (op <> OpEnable -> op <> OpDisable ->
      User.disabled u' = User.disabled u).
Proof.
  destruct op; cbn [apply_op];
    unfold User.set_password, User.change_username, User.change_email,
           User.enable, User.disable, User.mark_email_as_verified.
  - destruct (negb (truthy hashed_password)); [discriminate|].
    intros [= <-]. split; [auto|]. split; [|reflexivity].
    intros Hn. exfalso. apply (Hn hashed_password). reflexivity.
  - destruct (UserIdentity_new _ _); [|discriminate].
    intros [= <-]. split; [auto|]. split; reflexivity.
  - destruct (UserIdentity_new _ _); [|discriminate].
    intros [= <-]. split; [|split; reflexivity].
    intros _ Hv. discriminate Hv.
  - intros [= <-]. split; [auto|]. split; [reflexivity|]. congruence.
  - intros [= <-]. split; [auto|]. split; [reflexivity|]. congruence.
  - intros [= <-]. split; [congruence|]. split; reflexivity.
Qed.

(** X5. Which calls can change what: over any sequence of calls, the
    email-verification flag is true at the end only if it was true at the
    start or [mark_email_as_verified] was called; the password hash
    changes only if [set_password] was called; the disabled flag changes
    only if [enable] or [disable] was called. *)
Theorem apply_ops_field_provenance
    (ops : list (UserOp * datetime)) (u : User.t) :
  (Forall (fun c => fst c <> OpMarkEmailAsVerified) ops ->
   User.is_email_verified (apply_ops ops u) = true ->
   User.is_email_verified u = true)
  /\ (Forall (fun c => forall h, fst c <> OpSetPassword h) ops ->
      User.hashed_password (apply_ops ops u) = User.hashed_password u)
  /\ (Forall (fun c => fst c <> OpEnable /\ fst c <> OpDisable) ops ->
      User.disabled (apply_ops ops u) = User.disabled u).
Proof.
  revert u; induction ops as [|[op now] rest IH]; intros u.
  - split; [auto|]. split; reflexivity.
  - cbn [apply_ops]. destruct (apply_op op now u) as [u'|e] eqn:Hop.
    + destruct (apply_op_fields _ _ _ _ Hop) as (Fv & Fh & Fd).
      destruct (IH u') as (IHv & IHh & IHd).
      split; [|split].
      * intros Hall Hend. inversion Hall as [|c l Hc Hl]; subst.
        apply Fv; [exact Hc|]. apply IHv; assumption.
      * intros Hall. inversion Hall as [|c l Hc Hl]; subst.
        rewrite (IHh Hl). apply Fh. exact Hc.
      * intros Hall. inversion Hall as [|c l [Hc1 Hc2] Hl]; subst.
        rewrite (IHd Hl). apply Fd; assumption.
    + destruct (IH u) as (IHv & IHh & IHd).
      split; [|split]; intros Hall; inversion Hall; subst; auto.
Qed.

Lemma apply_ops_field_provenance_witness :
  let ops := [(OpChangeUsername (py "alicia"), 7%Z); (OpDisable, 8%Z)] in
  User.hashed_password (apply_ops ops Fake.alice)
  = User.hashed_password Fake.alice.
Proof.
  intros ops.
  apply (proj1 (proj2 (apply_ops_field_provenance ops Fake.alice))).
  repeat constructor; cbn; discriminate.
Defined.

(** X6. On an account, [change_username] with a username shorter than 4
    or longer than 10 characters raises [InvalidUsernameFormat], and
    [change_email] with an email without "@" raises [InvalidEmailFormat]. *)
Theorem change_rejects_invalid
    (u : User.t) (new_username new_email : pystr) (now : datetime) :
  User.identity_valid u ->
  ((len new_username < 4 \/ 10 < len new_username)%nat ->
   User.change_username new_username now u
   = raise_domain InvalidUsernameFormat)
  /\ (~ has_at new_email ->
      User.change_email new_email now u = raise_domain InvalidEmailFormat).
Proof.
  intros Hv. destruct (identity_valid_inv u Hv) as [Hlen Hat]. split.
  - intros Hbad. unfold User.change_username.
    rewrite (UserIdentity_new_bad_username _ _ Hbad). reflexivity.
  - intros Hno. unfold User.change_email, UserIdentity_new.
    assert (Ht : truthy (User.username u) = true).
    { destruct (User.username u); [simpl in Hlen; lia | reflexivity]. }
    assert (E1 : (4 <=? len (User.username u))%nat = true)
      by (apply Nat.leb_le; lia).
    assert (E2 : (len (User.username u) <=? 10)%nat = true)
      by (apply Nat.leb_le; lia).
    assert (E3 : contains (py "@") new_email = false).
    { destruct (contains (py "@") new_email) eqn:E; [|reflexivity].
      exfalso. apply Hno, contains_at, E. }
    rewrite Ht, E1, E2, E3. reflexivity.
Qed.

Lemma change_rejects_invalid_witness :
  User.change_username (py "al") 40%Z Fake.alice
  = raise_domain InvalidUsernameFormat
  /\ User.change_email (py "nowhere") 40%Z Fake.alice
     = raise_domain InvalidEmailFormat.
Proof.
  assert (Hv : User.identity_valid Fake.alice) by reflexivity.
  split.
  - apply (proj1 (change_rejects_invalid Fake.alice (py "al") (py "x")
                                         40%Z Hv)).
    vm_compute; lia.
  - apply (proj2 (change_rejects_invalid Fake.alice (py "al")
                                         (py "nowhere") 40%Z Hv)).
    intros Hat. apply contains_at in Hat. vm_compute in Hat.
    discriminate Hat.
Defined.

(** X7. [UserIdentity] checks the username first: a username outside
    4..10 characters gives [InvalidUsernameFormat] whatever the email; a
    good username with an email without "@" gives [InvalidEmailFormat];
    the identity is built exactly when both rules hold. *)
Theorem UserIdentity_validation (username email : pystr) :
  ((len username < 4 \/ 10 < len username)%nat ->
   UserIdentity_new username email = raise_domain InvalidUsernameFormat)
  /\ ((4 <= len username <= 10)%nat -> ~ has_at email ->
      UserIdentity_new username email = raise_domain InvalidEmailFormat)
  /\ ((exists i, UserIdentity_new username email = Ok i)
      <-> (4 <= len username <= 10)%nat /\ has_at email).
Proof.
  split; [apply UserIdentity_new_bad_username|].
  assert (Hno : (4 <= len username <= 10)%nat -> ~ has_at email ->
                UserIdentity_new username email
                = raise_domain InvalidEmailFormat).
  { intros Hlen Hat. unfold UserIdentity_new.
    assert (Ht : truthy username = true).
    { destruct username; [simpl in Hlen; lia | reflexivity]. }
    assert (E1 : (4 <=? len username)%nat = true) by (apply Nat.leb_le; lia).
    assert (E2 : (len username <=? 10)%nat = true) by (apply Nat.leb_le; lia).
    assert (E3 : contains (py "@") email = false).
    { destruct (contains (py "@") email) eqn:E; [|reflexivity].
      exfalso. apply Hat, contains_at, E. }
    rewrite Ht, E1, E2, E3. reflexivity. }
  split; [exact Hno|]. split.
  - intros [i Hi].
    destruct (Nat.lt_ge_cases (len username) 4) as [Hs|Hs].
    { rewrite UserIdentity_new_bad_username in Hi by lia. discriminate Hi. }
    destruct (Nat.lt_ge_cases 10 (len username)) as [Hl|Hl].
    { rewrite UserIdentity_new_bad_username in Hi by lia. discriminate Hi. }
    split; [lia|].
    destruct (contains (py "@") email) eqn:E; [apply contains_at, E|].
    rewrite Hno in Hi; [discriminate Hi | lia |].
    intros Hat. apply contains_at in Hat. congruence.
  - intros [Hlen Hat]. eexists. apply UserIdentity_new_ok; assumption.
Qed.

Lemma UserIdentity_validation_witness :
  UserIdentity_new (py "al") (py "nowhere")
  = raise_domain InvalidUsernameFormat
  /\ UserIdentity_new (py "alice") (py "nowhere")
     = raise_domain InvalidEmailFormat.
Proof.
  split.
  - apply (proj1 (UserIdentity_validation (py "al") (py "nowhere"))).
    vm_compute; lia.
  - apply (proj1 (proj2 (UserIdentity_validation (py "alice")
                                                 (py "nowhere")))).
    + vm_compute; lia.
    + intros Hat. apply contains_at in Hat. vm_compute in Hat.
      discriminate Hat.
Defined.

(* ===================================================================== *)
(** ** More properties of the credential functions *)
(* ===================================================================== *)

Lemma key_exp_sub : py "exp" <> py "sub".
Proof. intros E. vm_compute in E. discriminate E. Qed.

Section TokenProperties.
Context {DB : Type} `{Libraries}.

Lemma create_access_token_signs
    (data : gmap pystr Claim) (w : World DB) :
  exists payload : gmap pystr Claim,
    create_access_token data w
    = (jwt_encode payload (SECRET_KEY settings) (ALGORITHM settings),
       mkWorld (w_db w) (S (w_tick w)))
    /\ payload !! py "exp"
       = Some (CDatetime (clock (w_tick w)
                          + minutes (ACCESS_TOKEN_EXPIRE_MINUTES settings))%Z)
    /\ payload !! py "sub"
       = match data !! py "sub" with
         | Some (CUUID u) => Some (CStr (uuid_str u))
         | other => other
         end
    /\ (forall k, k <> py "exp" -> k <> py "sub" ->
          payload !! k = data !! k).
Proof.
  unfold create_access_token, bind, tick, liftRes. cbn [w_db w_tick].
  eexists. split; [reflexivity|].
  split; [apply lookup_insert_eq|].
  split.
  - rewrite lookup_insert_ne by apply key_exp_sub.
    destruct (data !! py "sub") as [[s|u|t]|] eqn:Hs;
      try exact Hs. apply lookup_insert_eq.
  - intros k Hexp Hsub. rewrite lookup_insert_ne by congruence.
    destruct (data !! py "sub") as [[s|u|t]|]; try reflexivity.
    rewrite lookup_insert_ne by congruence. reflexivity.
Qed.

Lemma decode_access_token_accepts
    (token : pystr) (w : World DB) (payload : gmap pystr Claim) :
  jwt_decode (clock (w_tick w)) token (SECRET_KEY settings)
             [ALGORITHM settings] = Ok payload ->
  decode_access_token token w
  = (Ok (payload !! py "sub"), mkWorld (w_db w) (S (w_tick w))).
Proof.
  intros Hd.
  unfold decode_access_token, try_except, bind, tick, liftRes, ret.
  cbn [w_tick w_db]. rewrite Hd. reflexivity.
Qed.

Lemma decode_access_token_rejects
    (token : pystr) (w : World DB) (c : PyJWTErrorClass) :
  jwt_decode (clock (w_tick w)) token (SECRET_KEY settings)
             [ALGORITHM settings] = Raise (EPyJWTError c) ->
  decode_access_token token w
  = (Ok None, mkWorld (w_db w) (S (w_tick w))).
Proof.
  intros Hd.
  unfold decode_access_token, try_except, bind, tick, liftRes, ret.
  cbn [w_tick w_db]. rewrite Hd. reflexivity.
Qed.


End TokenProperties.

Lemma key_access_token_type : py "access_token" <> py "token_type".
Proof. intros E. vm_compute in E. discriminate E. Qed.

Lemma key_sub_others :
  py "sub" <> py "username" /\ py "sub" <> py "email".
Proof. split; intros E; vm_compute in E; discriminate E. Qed.

Section IssuedTokenProperties.
Context {DB : Type} `{UserRepository DB} `{Libraries}.
Import AuthenticateUserUseCase.

Lemma authenticate_success (username password : pystr)
    (w : World DB) (db' : DB) (u : User.t) :
  get_by_username username (w_db w) = (Ok (Some u), db') ->
  verify_password password (User.hashed_password u) = Ok true ->
  User.disabled u = false ->
  _run username password w
  = let token_data : gmap pystr Claim :=
      {[ py "sub" := CStr (uuid_str (User.id u));
         py "username" := CStr (User.username u);
         py "email" := CStr (User.email u) ]} in
    match create_access_token token_data (mkWorld db' (w_tick w)) with
    | (Ok token, w1) =>
      (Ok ({[ py "access_token" := token;
              py "token_type" := py "bearer" ]} : gmap pystr pystr), w1)
    | (Raise e, w1) => (Raise e, w1)
    end.
Proof.
  intros Hget Hver Hdis. unfold _run, bind, on_db, liftRes.
  rewrite Hget, Hver. unfold User.is_enabled. rewrite Hdis. reflexivity.
Qed.

(** X9. The token [AuthenticateUserUseCase._run] returns, decoded by
    [decode_access_token] at an instant before the whole second of its
    expiry, gives the string of the id of the account that was
    authenticated, provided the algorithm is HS256 and the JWT library
    round-trips the "sub" of such a token. *)
Theorem issued_token_identifies_account
    (username password : pystr) (w w1 : World DB) (db' : DB) (u : User.t)
    (resp : gmap pystr pystr) (tok : pystr) :
  jwt_sub_round_trip ->
  ALGORITHM settings = py "HS256" ->
  (0 <= clock (S (w_tick w))
   < whole_seconds
       (clock (w_tick w) + minutes (ACCESS_TOKEN_EXPIRE_MINUTES settings)))%Z ->
  get_by_username username (w_db w) = (Ok (Some u), db') ->
  _run username password w = (Ok resp, w1) ->
  resp !! py "access_token" = Some tok ->
  resp !! py "token_type" = Some (py "bearer")
  /\ fst (decode_access_token tok w1)
     = Ok (Some (CStr (uuid_str (User.id u)))).
Proof.
  intros Hrt Halg Hclock Hget Hrun Htok.
  destruct (verify_password password (User.hashed_password u))
    as [[|]|e] eqn:Hver.
  2:{ rewrite (authenticate_wrong_password _ _ _ _ _ Hget Hver) in Hrun.
      discriminate Hrun. }
  2:{ unfold _run, bind, on_db, liftRes in Hrun.
      rewrite Hget, Hver in Hrun. discriminate Hrun. }
  destruct (User.disabled u) eqn:Hdis.
  { rewrite (authenticate_disabled _ _ _ _ _ Hget Hver Hdis) in Hrun.
    discriminate Hrun. }
  rewrite (authenticate_success _ _ _ _ _ Hget Hver Hdis) in Hrun.
  cbv zeta in Hrun.
  destruct (create_access_token_signs
              ({[ py "sub" := CStr (uuid_str (User.id u));
                  py "username" := CStr (User.username u);
                  py "email" := CStr (User.email u) ]} : gmap pystr Claim)
              (mkWorld db' (w_tick w)))
    as (payload & Hcat & Hexp & Hsub & Hother).
  cbn [w_db w_tick] in Hcat, Hexp.
  rewrite Hcat in Hrun.
  destruct (jwt_encode payload (SECRET_KEY settings) (ALGORITHM settings))
    as [tok0|e] eqn:Henc; [|discriminate Hrun].
  injection Hrun as <- <-.
  rewrite lookup_insert_eq in Htok. injection Htok as ->.
  split.
  { rewrite lookup_insert_ne by apply key_access_token_type.
    apply lookup_singleton_eq. }
  assert (Hs : payload !! py "sub" = Some (CStr (uuid_str (User.id u)))).
  { rewrite Hsub. rewrite lookup_insert_eq. reflexivity. }
  assert (Hkeys : forall k, k <> py "sub" -> k <> py "exp" ->
                    k <> py "username" -> k <> py "email" ->
                    payload !! k = None).
  { intros k K1 K2 K3 K4. rewrite (Hother k K2 K1).
    rewrite lookup_insert_ne by congruence.
    rewrite lookup_insert_ne by congruence.
    apply lookup_singleton_ne. congruence. }
  destruct (Hrt Halg payload _ tok _ (clock (S (w_tick w)))
                Hs Hexp Hkeys Hclock Henc)
    as (payload' & Hdec & Hs').
  rewrite (decode_access_token_accepts tok (mkWorld db' (S (w_tick w)))
                                       payload' Hdec).
  cbn [fst]. rewrite Hs'. reflexivity.
Qed.

End IssuedTokenProperties.

Lemma armoured_clear (l : pystr) :
  Forall (fun c => Closer.armour <= c) l ->
  existsb Closer.surrogate l = false
  /\ forallb (fun c => Closer.armour <=? c) l = true.
Proof.
  induction 1 as [|c l Hc Hl [IH1 IH2]]; [split; reflexivity|].
  cbn [existsb forallb]. rewrite IH1, IH2. split.
  - rewrite orb_false_r. unfold Closer.surrogate, in_range.
    apply andb_false_iff. right. apply N.leb_gt.
    unfold Closer.armour in Hc. lia.
  - rewrite andb_true_r. apply N.leb_le. exact Hc.
Qed.

Lemma armour_off (s : pystr) :
  map (fun c => c - Closer.armour) (map (N.add Closer.armour) s) = s.
Proof.
  induction s as [|c s IH]; [reflexivity|].
  cbn [map]. rewrite IH. f_equal. lia.
Qed.

Lemma Closer_jwt_sub_round_trip : jwt_sub_round_trip (H := Closer.libraries).
Proof.
  intros _ payload s tok t now Hsub Hexp _ [Hnow Hlt] Henc.
  cbn [jwt_encode Closer.libraries] in Henc. unfold Closer.encode in Henc.
  rewrite Hsub, Hexp in Henc. injection Henc as <-.
  exists {[ py "sub" := CStr s ]}. split; [|apply lookup_singleton_eq].
  cbn [jwt_decode Closer.libraries]. unfold Closer.decode.
  unfold whole_seconds in Hlt.
  assert (Ht : (0 <= t / 1000000)%Z).
  { destruct (Z.le_gt_cases 0 (t / 1000000)) as [Hle|Hgt]; [exact Hle|].
    exfalso. nia. }
  destruct (armoured_clear
              ((Closer.armour + Z.to_N (t / 1000000))
                 :: map (N.add Closer.armour) s)) as [E1 E2].
  { constructor; [lia|]. clear. induction s as [|c s IH]; cbn [map];
      constructor; [lia | exact IH]. }
  rewrite E1, E2. cbn [negb].
  replace (Closer.armour + Z.to_N (t / 1000000) - Closer.armour)
    with (Z.to_N (t / 1000000)) by lia.
  rewrite Z2N.id by exact Ht.
  destruct (Z.leb_spec (t / 1000000 * 1000000) now) as [Hle|Hgt]; [lia|].
  rewrite armour_off. reflexivity.
Qed.

Lemma issued_token_identifies_account_witness :
  let w := Fake.world_of [Fake.alice] in
  let w1 := mkWorld (Fake.mkSession [Fake.alice] []) 1 in
  let tok := [Closer.armour + 3600; Closer.armour + 55] in
  let resp : gmap pystr pystr :=
    {[ py "access_token" := tok; py "token_type" := py "bearer" ]} in
  resp !! py "token_type" = Some (py "bearer")
  /\ fst (decode_access_token (H := Closer.libraries) tok w1)
     = Ok (Some (CStr (uuid_str (Libraries := Closer.libraries)
                                (User.id Fake.alice)))).
Proof.
  intros w w1 tok resp.
  apply (issued_token_identifies_account (H0 := Closer.libraries)
           (py "alice") (py "Passw0rd") w w1
           (Fake.mkSession [Fake.alice] []) Fake.alice resp tok).
  - exact Closer_jwt_sub_round_trip.
  - reflexivity.
  - vm_compute. split; [discriminate | reflexivity].
  - reflexivity.
  - vm_compute; reflexivity.
  - vm_compute; reflexivity.
Defined.

(** The stand-in rejects the same token from the whole second of its
    expiry on. *)
Example issued_token_expires :
  let tok := [Closer.armour + 3600; Closer.armour + 55] in
  Closer.decode 3599999999%Z tok (py "secret") [py "HS256"]
  = Ok {[ py "sub" := CStr (py "7") ]}
  /\ Closer.decode 3600000000%Z tok (py "secret") [py "HS256"]
     = Raise (EPyJWTError ExpiredSignatureError).
Proof. split; vm_compute; reflexivity. Qed.


(* ===================================================================== *)
(** ** More properties of the use cases *)
(* ===================================================================== *)

Section ProfileProperties.
Context {DB : Type} `{UserRepository DB} `{Libraries}.

(** X10. [GetUserUseCase._run] raises [UserNotFound] when the lookup by
    id finds nothing and [UserDisabled] when it finds a disabled account;
    whenever it returns, it returns the account the lookup found, and that
    account is not disabled. *)
Theorem get_user_outcomes (id : UUID) (w : World DB) :
  (forall db', get_by_id id (w_db w) = (Ok None, db') ->
     fst (GetUserUseCase._run id w) = raised UserNotFound)
  /\ (forall db' u, get_by_id id (w_db w) = (Ok (Some u), db') ->
        User.disabled u = true ->
        fst (GetUserUseCase._run id w) = raised UserDisabled)
  /\ (forall u w', GetUserUseCase._run id w = (Ok u, w') ->
        User.disabled u = false
        /\ get_by_id id (w_db w) = (Ok (Some u), w_db w')
        /\ w_tick w' = w_tick w).
Proof.
  unfold GetUserUseCase._run, bind, on_db.
  destruct (get_by_id id (w_db w)) as [[[u0|]|e] db0] eqn:Hget.
  - split; [|split].
    + intros db' [=].
    + intros db' u [= <- <-] Hdis. rewrite Hdis. reflexivity.
    + intros u w'. destruct (User.disabled u0) eqn:Hd.
      * intros Hr; discriminate Hr.
      * intros [= <- <-]. auto.
  - split; [|split].
    + intros db' _. reflexivity.
    + intros db' u [=].
    + intros u w' Hr; discriminate Hr.
  - split; [|split].
    + intros db' [=].
    + intros db' u [=].
    + intros u w' Hr; discriminate Hr.
Qed.

(** X11. [DisableUserUseCase._run]: when the account is not found it
    raises [UserNotFound] and makes no [update_user] call; when it is
    found (disabled already or not) and [update_user] succeeds, it returns
    the account it handed to [update_user]: disabled, with [updated_at]
    the clock reading and everything else as found. *)
Theorem disable_user_contract (user_id : UUID) (w : World DB) :
  (forall db1, get_by_id user_id (w_db w) = (Ok None, db1) ->
     DisableUserUseCase._run user_id w
     = (raised UserNotFound, mkWorld db1 (w_tick w)))
  /\ (forall db1 db2 u,
        get_by_id user_id (w_db w) = (Ok (Some u), db1) ->
        update_user
          (User.mk (User.id u) (User._identity u)
                   (mkUserSecurity (User.hashed_password u) true
                                   (User.is_email_verified u))
                   (User.created_at u) (clock (w_tick w))) db1
        = (Ok tt, db2) ->
        exists u',
          DisableUserUseCase._run user_id w
          = (Ok u', mkWorld db2 (S (w_tick w)))
          /\ update_user u' db1 = (Ok tt, db2)
          /\ User.is_enabled u' = false
          /\ User.updated_at u' = clock (w_tick w)
          /\ User._identity u' = User._identity u
          /\ User.hashed_password u' = User.hashed_password u
          /\ User.is_email_verified u' = User.is_email_verified u
          /\ User.id u' = User.id u).
Proof.
  split.
  - intros db1 Hget. unfold DisableUserUseCase._run, bind, on_db.
    rewrite Hget. reflexivity.
  - intros db1 db2 u Hget Hupd. eexists. split; [|split; [exact Hupd|]].
    + unfold DisableUserUseCase._run, bind, on_db, call, User.disable.
      rewrite Hget. cbn [w_db w_tick].
      unfold User.id, User.hashed_password, User.is_email_verified,
             User.created_at in Hupd.
      rewrite Hupd. reflexivity.
    + repeat split.
Qed.

(** X12. [EnableUserUseCase._run]: [UserNotFound] without any
    [update_user] call when the account is not found; otherwise, when
    [update_user] succeeds, the account handed to it and returned is
    enabled and otherwise as found. *)
Theorem enable_user_contract (user_id : UUID) (w : World DB) :
  (forall db1, get_by_id user_id (w_db w) = (Ok None, db1) ->
     EnableUserUseCase._run user_id w
     = (raised UserNotFound, mkWorld db1 (w_tick w)))
  /\ (forall db1 db2 u,
        get_by_id user_id (w_db w) = (Ok (Some u), db1) ->
        update_user
          (User.mk (User.id u) (User._identity u)
                   (mkUserSecurity (User.hashed_password u) false
                                   (User.is_email_verified u))
                   (User.created_at u) (clock (w_tick w))) db1
        = (Ok tt, db2) ->
        exists u',
          EnableUserUseCase._run user_id w
          = (Ok u', mkWorld db2 (S (w_tick w)))
          /\ update_user u' db1 = (Ok tt, db2)
          /\ User.is_enabled u' = true
          /\ User.updated_at u' = clock (w_tick w)
          /\ User._identity u' = User._identity u
          /\ User.hashed_password u' = User.hashed_password u
          /\ User.is_email_verified u' = User.is_email_verified u
          /\ User.id u' = User.id u).
Proof.
  split.
  - intros db1 Hget. unfold EnableUserUseCase._run, bind, on_db.
    rewrite Hget. reflexivity.
  - intros db1 db2 u Hget Hupd. eexists. split; [|split; [exact Hupd|]].
    + unfold EnableUserUseCase._run, bind, on_db, call, User.enable.
      rewrite Hget. cbn [w_db w_tick].
      unfold User.id, User.hashed_password, User.is_email_verified,
             User.created_at in Hupd.
      rewrite Hupd. reflexivity.
    + repeat split.
Qed.

End ProfileProperties.

Lemma get_user_outcomes_witness :
  fst (GetUserUseCase._run 3 (Fake.world_of [Fake.alice]))
  = raised UserNotFound
  /\ fst (GetUserUseCase._run 7 (Fake.world_of [Fake.alice_disabled]))
     = raised UserDisabled
  /\ User.disabled Fake.alice = false.
Proof.
  split; [|split].
  - apply (proj1 (get_user_outcomes 3 (Fake.world_of [Fake.alice]))
                 (Fake.mkSession [Fake.alice] [])).
    reflexivity.
  - apply (proj1 (proj2 (get_user_outcomes
                           7 (Fake.world_of [Fake.alice_disabled])))
                 (Fake.mkSession [Fake.alice_disabled] [])
                 Fake.alice_disabled); reflexivity.
  - apply (proj2 (proj2 (get_user_outcomes 7 (Fake.world_of [Fake.alice])))
                 Fake.alice (Fake.world_of [Fake.alice])).
    reflexivity.
Defined.

Lemma disable_user_contract_witness :
  DisableUserUseCase._run 3 (Fake.world_of [Fake.alice])
  = (raised UserNotFound, Fake.world_of [Fake.alice])
  /\ exists u',
       fst (DisableUserUseCase._run 7 (Fake.world_of [Fake.alice_disabled]))
       = Ok u'
       /\ User.is_enabled u' = false.
Proof.
  split.
  - apply (proj1 (disable_user_contract 3 (Fake.world_of [Fake.alice]))
                 (Fake.mkSession [Fake.alice] [])).
    reflexivity.
  - edestruct (proj2 (disable_user_contract
                        7 (Fake.world_of [Fake.alice_disabled])))
      as (u' & Hrun & _ & Hen & _); [reflexivity | reflexivity |].
    exists u'. split; [rewrite Hrun; reflexivity | exact Hen].
Defined.

Lemma enable_user_contract_witness :
  EnableUserUseCase._run 3 (Fake.world_of [Fake.alice])
  = (raised UserNotFound, Fake.world_of [Fake.alice])
  /\ exists u',
       fst (EnableUserUseCase._run 7 (Fake.world_of [Fake.alice_disabled]))
       = Ok u'
       /\ User.is_enabled u' = true.
Proof.
  split.
  - apply (proj1 (enable_user_contract 3 (Fake.world_of [Fake.alice]))
                 (Fake.mkSession [Fake.alice] [])).
    reflexivity.
  - edestruct (proj2 (enable_user_contract
                        7 (Fake.world_of [Fake.alice_disabled])))
      as (u' & Hrun & _ & Hen & _); [reflexivity | reflexivity |].
    exists u'. split; [rewrite Hrun; reflexivity | exact Hen].
Defined.

Section RegisterMoreProperties.
Context {DB : Type} `{UserRepository DB} `{Libraries}.
Import RegisterUserUseCase.

(** X13. The pre-checks of [RegisterUserUseCase._run]: a username that
    the lookup finds gives [UsernameAlreadyExists] before the email is
    looked up; otherwise an email that the lookup finds gives
    [EmailAlreadyExists]. In both cases nothing is validated, read from
    the clock or handed to [create_user]. *)
Theorem register_prechecks (dto : RegisterUserDTO) (w : World DB) :
  (forall db1 u,
     get_by_username (username dto) (w_db w) = (Ok (Some u), db1) ->
     _run dto w = (raised UsernameAlreadyExists, mkWorld db1 (w_tick w)))
  /\ (forall db1 db2 u,
        get_by_username (username dto) (w_db w) = (Ok None, db1) ->
        get_by_email (email dto) db1 = (Ok (Some u), db2) ->
        _run dto w = (raised EmailAlreadyExists, mkWorld db2 (w_tick w))).
Proof.
  split.
  - intros db1 u Hn. unfold _run, bind, on_db. rewrite Hn. reflexivity.
  - intros db1 db2 u Hn Hm. unfold _run, bind, on_db.
    rewrite Hn. cbn [found w_db w_tick]. rewrite Hm. reflexivity.
Qed.

(** X14. After the pre-checks, [RegisterUserUseCase._run] validates in
    this order, and hands nothing to [create_user] when a check fails: a
    username outside 4..10 characters gives [InvalidUsernameFormat]; else
    an email without "@" gives [InvalidEmailFormat]; else a password that
    is not strong gives [InvalidPasswordFormat]. *)
Theorem register_validation_order
    (dto : RegisterUserDTO) (w : World DB) (db1 db2 : DB) :
  get_by_username (username dto) (w_db w) = (Ok None, db1) ->
  get_by_email (email dto) db1 = (Ok None, db2) ->
  ((len (username dto) < 4 \/ 10 < len (username dto))%nat ->
   _run dto w
   = (raise_domain InvalidUsernameFormat, mkWorld db2 (w_tick w)))
  /\ ((4 <= len (username dto) <= 10)%nat -> ~ has_at (email dto) ->
      _run dto w
      = (raise_domain InvalidEmailFormat, mkWorld db2 (w_tick w)))
  /\ ((4 <= len (username dto) <= 10)%nat -> has_at (email dto) ->
      ~ strong_password (password dto) ->
      raised_class (fst (_run dto w)) = Some InvalidPasswordFormat
      /\ w_db (snd (_run dto w)) = db2).
Proof.
  intros Hn Hm.
  split; [|split].
  - intros Hbad. unfold _run, bind, on_db.
    rewrite Hn. cbn [found w_db w_tick]. rewrite Hm. cbn [found w_db w_tick].
    unfold User_create, User.create. cbn [w_db w_tick].
    rewrite (UserIdentity_new_bad_username _ _ Hbad). reflexivity.
  - intros Hlen Hat. unfold _run, bind, on_db.
    rewrite Hn. cbn [found w_db w_tick]. rewrite Hm. cbn [found w_db w_tick].
    unfold User_create, User.create. cbn [w_db w_tick].
    unfold UserIdentity_new.
    assert (Ht : truthy (username dto) = true).
    { destruct (username dto); [simpl in Hlen; lia | reflexivity]. }
    assert (E1 : (4 <=? len (username dto))%nat = true)
      by (apply Nat.leb_le; lia).
    assert (E2 : (len (username dto) <=? 10)%nat = true)
      by (apply Nat.leb_le; lia).
    assert (E3 : contains (py "@") (email dto) = false).
    { destruct (contains (py "@") (email dto)) eqn:E; [|reflexivity].
      exfalso. apply Hat, contains_at, E. }
    rewrite Ht, E1, E2, E3. reflexivity.
  - intros Hlen Hat Hweak. unfold _run, bind, on_db.
    rewrite Hn. cbn [found w_db w_tick]. rewrite Hm. cbn [found w_db w_tick].
    unfold User_create, User.create. cbn [w_db w_tick].
    rewrite (UserIdentity_new_ok _ _ Hlen Hat). unfold liftRes.
    destruct (Password.new (password dto)) as [pw|e] eqn:Hpw.
    + exfalso. apply Hweak.
      unfold Password.new in Hpw. unfold strong_password,
        has_uppercase, has_lowercase, has_digit.
      destruct (Nat.ltb_spec (len (password dto)) 8); [discriminate Hpw|].
      destruct (search_class 65 90 _) eqn:Hu; [|discriminate Hpw].
      destruct (search_class 97 122 _) eqn:Hl; [|discriminate Hpw].
      destruct (search_class 48 57 _) eqn:Hd; [|discriminate Hpw].
      rewrite search_class_spec in Hu, Hl, Hd. auto.
    + split; [|reflexivity]. cbn [fst].
      unfold Password.new in Hpw.
      destruct (_ <? _)%nat; [injection Hpw as <-; reflexivity|].
      destruct (negb _); [injection Hpw as <-; reflexivity|].
      destruct (negb _); [injection Hpw as <-; reflexivity|].
      destruct (negb _); [injection Hpw as <-; reflexivity|].
      discriminate Hpw.
Qed.

(** X15. When the pre-checks pass, the inputs are valid, the hasher
    returns a non-empty hash and [create_user] succeeds,
    [RegisterUserUseCase._run] returns the account it handed to
    [create_user]: the username and email of the request, the hash the
    hasher returned, enabled, email not verified, the id drawn from
    [uuid4]. *)
Theorem register_success
    (dto : RegisterUserDTO) (w : World DB) (db1 db2 db3 : DB)
    (hashed : pystr) :
  let n := w_tick w in
  let u1 := User.mk (uuid_source n)
                    (mkUserIdentity (username dto) (email dto))
                    (mkUserSecurity hashed false false)
                    (clock (S n)) (clock (S (S (S (S n))))) in
  get_by_username (username dto) (w_db w) = (Ok None, db1) ->
  get_by_email (email dto) db1 = (Ok None, db2) ->
  (4 <= len (username dto) <= 10)%nat -> has_at (email dto) ->
  strong_password (password dto) ->
  password_hash_hash (S (S (S n))) (password dto) = Ok hashed ->
  hashed <> [] ->
  create_user u1 db2 = (Ok tt, db3) ->
  _run dto w = (Ok u1, mkWorld db3 (S (S (S (S (S n))))))
  /\ User.username u1 = username dto
  /\ User.email u1 = email dto
  /\ User.hashed_password u1 = hashed
  /\ User.is_enabled u1 = true
  /\ User.is_email_verified u1 = false.
Proof.
  intros n u1 Hn Hm Hlen Hat Hpw Hhash Hne Hc.
  split; [|repeat split].
  unfold _run, bind, on_db.
  rewrite Hn. cbn [found w_db w_tick]. rewrite Hm. cbn [found w_db w_tick].
  unfold User_create, User.create. cbn [w_db w_tick].
  rewrite (UserIdentity_new_ok _ _ Hlen Hat). unfold liftRes.
  rewrite (Password_new_ok _ Hpw).
  unfold get_password_hash. cbn [w_db w_tick Password.value].
  fold n. rewrite Hhash.
  unfold call, User.set_password. cbn [w_db w_tick].
  destruct hashed as [|c rest]; [congruence|]. cbn [truthy negb].
  unfold try_except. cbn [w_db w_tick User._id User._identity User._security
    User._created_at sec_disabled sec_is_email_verified].
  fold n. unfold u1 in Hc. rewrite Hc. reflexivity.
Qed.

End RegisterMoreProperties.

Lemma register_prechecks_witness :
  RegisterUserUseCase._run
    (RegisterUserUseCase.mkDTO (py "alice") (py "a@x.com") (py "weak"))
    (Fake.world_of [Fake.alice])
  = (raised UsernameAlreadyExists, Fake.world_of [Fake.alice])
  /\ RegisterUserUseCase._run
       (RegisterUserUseCase.mkDTO (py "bo") (py "a@x.com") (py "weak"))
       (Fake.world_of [Fake.alice])
     = (raised EmailAlreadyExists, Fake.world_of [Fake.alice]).
Proof.
  split.
  - apply (proj1 (register_prechecks
                    (RegisterUserUseCase.mkDTO (py "alice") (py "a@x.com")
                                               (py "weak"))
                    (Fake.world_of [Fake.alice]))
                 (Fake.mkSession [Fake.alice] []) Fake.alice).
    reflexivity.
  - apply (proj2 (register_prechecks
                    (RegisterUserUseCase.mkDTO (py "bo") (py "a@x.com")
                                               (py "weak"))
                    (Fake.world_of [Fake.alice]))
                 (Fake.mkSession [Fake.alice] [])
                 (Fake.mkSession [Fake.alice] []) Fake.alice);
      reflexivity.
Defined.

Lemma register_validation_order_witness :
  RegisterUserUseCase._run
    (RegisterUserUseCase.mkDTO (py "bo") (py "nowhere") (py "weak"))
    Fake.empty_world
  = (raise_domain InvalidUsernameFormat, Fake.empty_world)
  /\ RegisterUserUseCase._run
       (RegisterUserUseCase.mkDTO (py "bobby") (py "nowhere") (py "weak"))
       Fake.empty_world
     = (raise_domain InvalidEmailFormat, Fake.empty_world)
  /\ raised_class
       (fst (RegisterUserUseCase._run
               (RegisterUserUseCase.mkDTO (py "bobby") (py "b@x.com")
                                          (py "weak"))
               Fake.empty_world))
     = Some InvalidPasswordFormat.
Proof.
  assert (Hno : ~ has_at (py "nowhere")).
  { intros Hat. apply contains_at in Hat. vm_compute in Hat.
    discriminate Hat. }
  split; [|split].
  - edestruct (register_validation_order
                 (RegisterUserUseCase.mkDTO (py "bo") (py "nowhere")
                                            (py "weak"))
                 Fake.empty_world) as (Hu & _ & _);
      [reflexivity | reflexivity |].
    apply Hu. vm_compute; lia.
  - edestruct (register_validation_order
                 (RegisterUserUseCase.mkDTO (py "bobby") (py "nowhere")
                                            (py "weak"))
                 Fake.empty_world) as (_ & He & _);
      [reflexivity | reflexivity |].
    apply He; [vm_compute; lia | exact Hno].
  - edestruct (register_validation_order
                 (RegisterUserUseCase.mkDTO (py "bobby") (py "b@x.com")
                                            (py "weak"))
                 Fake.empty_world) as (_ & _ & Hp);
      [reflexivity | reflexivity |].
    apply Hp.
    + vm_compute; lia.
    + vm_compute; tauto.
    + intros [Hlen _]. vm_compute in Hlen. lia.
Defined.

Lemma register_success_witness :
  exists u1,
    fst (RegisterUserUseCase._run
           (RegisterUserUseCase.mkDTO (py "alice") (py "a@x.com")
                                      (py "Passw0rd"))
           Fake.empty_world) = Ok u1
    /\ User.username u1 = py "alice"
    /\ User.hashed_password u1 = Fake.toy_hash (py "Passw0rd")
    /\ User.is_enabled u1 = true
    /\ User.is_email_verified u1 = false.
Proof.
  edestruct (register_success
               (RegisterUserUseCase.mkDTO (py "alice") (py "a@x.com")
                                          (py "Passw0rd"))
               Fake.empty_world)
    as (Hrun & Hname & _ & Hhash & Hen & Hver).
  - reflexivity.
  - reflexivity.
  - vm_compute; lia.
  - vm_compute; tauto.
  - split; [vm_compute; lia|].
    split; [exists 80|split; [exists 97|exists 48]];
      (split; [vm_compute; tauto | lia]).
  - reflexivity.
  - vm_compute; discriminate.
  - reflexivity.
  - eexists. split; [rewrite Hrun; reflexivity|].
    split; [exact Hname|]. split; [exact Hhash|]. split; assumption.
Defined.

Lemma Password_new_weak (s : pystr) :
  ~ strong_password s ->
  exists e, Password.new s = Raise e
            /\ raised_class (Password.new s) = Some InvalidPasswordFormat.
Proof.
  intros Hweak. unfold Password.new.
  destruct (Nat.ltb_spec (len s) 8) as [Hl|Hl];
    [eexists; split; reflexivity|].
  destruct (search_class 65 90 s) eqn:Hu; cbn [negb];
    [|eexists; split; reflexivity].
  destruct (search_class 97 122 s) eqn:Hw; cbn [negb];
    [|eexists; split; reflexivity].
  destruct (search_class 48 57 s) eqn:Hd; cbn [negb];
    [|eexists; split; reflexivity].
  exfalso. apply Hweak. rewrite search_class_spec in Hu, Hw, Hd.
  unfold strong_password, has_uppercase, has_lowercase, has_digit. auto.
Qed.

Lemma differs_same (current : pystr) (new : option pystr) :
  new = None \/ new = Some current ->
  UpdateUserUseCase.differs new current = None.
Proof.
  intros [->| ->]; [reflexivity|]. unfold UpdateUserUseCase.differs.
  rewrite pystr_eqb_refl. reflexivity.
Qed.

Lemma differs_other (current v : pystr) :
  v <> current -> UpdateUserUseCase.differs (Some v) current = Some v.
Proof.
  intros Hne. unfold UpdateUserUseCase.differs.
  destruct (PyStr.eqb v current) eqn:E; [|reflexivity].
  apply pystr_eqb_eq in E. congruence.
Qed.

Section UpdateMoreProperties.
Context {DB : Type} `{UserRepository DB} `{Libraries}.
Import UpdateUserUseCase.

(** X16. With the right current password and nothing to change (each of
    username and email absent or equal to the current value, no new
    password), [UpdateUserUseCase._run] returns the account as it is: no
    lookup, no [update_user] call, no clock reading. *)
Theorem update_nothing_to_change
    (user : User.t) (dto : UpdateUserDTO) (w : World DB) :
  verify_password (current_password dto) (User.hashed_password user)
  = Ok true ->
  username dto = None \/ username dto = Some (User.username user) ->
  email dto = None \/ email dto = Some (User.email user) ->
  new_password dto = None ->
  _run user dto w = (Ok user, (user, w)).
Proof.
  intros Hver Hn He Hp.
  unfold _run, body, bind, self_now, liftRes. cbn [fst].
  rewrite Hver. cbn [negb].
  rewrite (differs_same _ _ Hn). unfold ret. cbn [fst].
  rewrite (differs_same _ _ He). rewrite Hp. reflexivity.
Qed.

(** X17. The account object is changed step by step: when the new
    username is free and valid but the new email is taken,
    [UpdateUserUseCase._run] raises [EmailAlreadyExists] after the object
    already carries the new username; [update_user] is not called. *)
Theorem update_username_then_email_conflict
    (user other : User.t) (dto : UpdateUserDTO) (w : World DB)
    (n e : pystr) (db1 db2 : DB) :
  verify_password (current_password dto) (User.hashed_password user)
  = Ok true ->
  User.identity_valid user ->
  username dto = Some n -> n <> User.username user ->
  (4 <= len n <= 10)%nat ->
  get_by_username n (w_db w) = (Ok None, db1) ->
  email dto = Some e -> e <> User.email user ->
  get_by_email e db1 = (Ok (Some other), db2) ->
  exists user',
    _run user dto w
    = (raised EmailAlreadyExists, (user', mkWorld db2 (S (w_tick w))))
    /\ User.username user' = n
    /\ User.email user' = User.email user
    /\ User.updated_at user' = clock (w_tick w).
Proof.
  intros Hver Hv Hn Hne Hlen Hgn He Hnee Hge.
  destruct (identity_valid_inv user Hv) as [_ Hat].
  eexists. split.
  - unfold _run, body, bind, self_now, liftRes. cbn [fst].
    rewrite Hver. cbn [negb].
    rewrite Hn, (differs_other _ _ Hne).
    unfold in_world, on_db. rewrite Hgn. cbn [found].
    unfold call_self, User.change_username. cbn [w_db w_tick].
    rewrite (UserIdentity_new_ok _ _ Hlen Hat).
    unfold ret. cbn [fst].
    rewrite He.
    change (User.email
              (User.mk (User._id user) (mkUserIdentity n (User.email user))
                       (User._security user) (User._created_at user)
                       (clock (w_tick w))))
      with (User.email user).
    rewrite (differs_other _ _ Hnee). cbn [w_db w_tick].
    rewrite Hge. reflexivity.
  - repeat split.
Qed.

(** X18. With the right current password, a new email that differs,
    contains "@" and is free, and nothing else to change,
    [UpdateUserUseCase._run] hands to [update_user] and returns the account
    with the new email and [is_email_verified] false, whatever the flag
    was. *)
Theorem update_email_resets_verification
    (user : User.t) (dto : UpdateUserDTO) (w : World DB)
    (e : pystr) (db1 db2 : DB) :
  let user' := User.mk (User.id user)
                       (mkUserIdentity (User.username user) e)
                       (mkUserSecurity (User.hashed_password user)
                                       (User.disabled user) false)
                       (User.created_at user) (clock (w_tick w)) in
  verify_password (current_password dto) (User.hashed_password user)
  = Ok true ->
  User.identity_valid user ->
  username dto = None -> new_password dto = None ->
  email dto = Some e -> e <> User.email user -> has_at e ->
  get_by_email e (w_db w) = (Ok None, db1) ->
  update_user user' db1 = (Ok tt, db2) ->
  _run user dto w = (Ok user', (user', mkWorld db2 (S (w_tick w))))
  /\ User.email user' = e
  /\ User.is_email_verified user' = false.
Proof.
  intros user' Hver Hv Hn Hp He Hne Hat Hge Hupd.
  split; [|split; reflexivity].
  unfold _run, body, bind, self_now, liftRes. cbn [fst].
  rewrite Hver. cbn [negb]. rewrite Hn. cbn [differs].
  unfold ret. cbn [fst].
  rewrite He, (differs_other _ _ Hne).
  unfold in_world, on_db. rewrite Hge. cbn [found].
  unfold call_self. cbn [w_db w_tick].
  rewrite (change_email_ok user e (clock (w_tick w)) Hv Hat).
  rewrite Hp. cbn [fst w_db w_tick].
  fold (User.id user). fold (User.created_at user). fold user'.
  rewrite Hupd. reflexivity.
Qed.

(** X19. With the right current password, a new username that differs and
    is already taken gives [UsernameAlreadyExists], and a new password
    that is not strong (nothing else being changed) gives
    [InvalidPasswordFormat]; in both cases the account object is left as
    it was and [update_user] is not called. *)
Theorem update_rejections
    (user : User.t) (dto : UpdateUserDTO) (w : World DB) :
  verify_password (current_password dto) (User.hashed_password user)
  = Ok true ->
  (forall n other db1,
     username dto = Some n -> n <> User.username user ->
     get_by_username n (w_db w) = (Ok (Some other), db1) ->
     _run user dto w
     = (raised UsernameAlreadyExists, (user, mkWorld db1 (w_tick w))))
  /\ (forall p,
        username dto = None -> email dto = None ->
        new_password dto = Some p -> ~ strong_password p ->
        raised_class (fst (_run user dto w)) = Some InvalidPasswordFormat
        /\ snd (_run user dto w) = (user, w)).
Proof.
  intros Hver. split.
  - intros n other db1 Hn Hne Hgn.
    unfold _run, body, bind, self_now, liftRes. cbn [fst].
    rewrite Hver. cbn [negb]. rewrite Hn, (differs_other _ _ Hne).
    unfold in_world, on_db. rewrite Hgn. reflexivity.
  - intros p Hn He Hp Hweak.
    destruct (Password_new_weak p Hweak) as (ex & Hraise & Hclass).
    unfold _run, body, bind, self_now, liftRes. cbn [fst].
    rewrite Hver. cbn [negb]. rewrite Hn, He, Hp. cbn [differs].
    unfold ret. cbn [fst]. rewrite Hraise in *. split; [exact Hclass|].
    reflexivity.
Qed.

End UpdateMoreProperties.

Lemma update_nothing_to_change_witness :
  let dto := UpdateUserUseCase.mkDTO (py "Passw0rd") (Some (py "alice"))
                                     None None in
  let w := Fake.world_of [Fake.alice] in
  UpdateUserUseCase._run Fake.alice dto w = (Ok Fake.alice, (Fake.alice, w)).
Proof.
  intros dto w.
  apply (update_nothing_to_change Fake.alice dto w).
  - reflexivity.
  - right; reflexivity.
  - left; reflexivity.
  - reflexivity.
Defined.

Lemma update_username_then_email_conflict_witness :
  let dto := UpdateUserUseCase.mkDTO (py "Passw0rd") (Some (py "alicia"))
                                     (Some (py "b@x.com")) None in
  let w := Fake.world_of [Fake.alice; FakeSession.bobby] in
  exists user',
    UpdateUserUseCase._run Fake.alice dto w
    = (raised EmailAlreadyExists,
       (user', mkWorld (Fake.mkSession [Fake.alice; FakeSession.bobby] [])
                       1))
    /\ User.username user' = py "alicia"
    /\ User.email user' = User.email Fake.alice
    /\ User.updated_at user' = clock 0.
Proof.
  intros dto w.
  apply (update_username_then_email_conflict
           Fake.alice FakeSession.bobby dto w (py "alicia") (py "b@x.com")
           (Fake.mkSession [Fake.alice; FakeSession.bobby] [])
           (Fake.mkSession [Fake.alice; FakeSession.bobby] [])).
  - reflexivity.
  - reflexivity.
  - reflexivity.
  - vm_compute; discriminate.
  - vm_compute; lia.
  - reflexivity.
  - reflexivity.
  - vm_compute; discriminate.
  - reflexivity.
Defined.

Lemma update_email_resets_verification_witness :
  let dto := UpdateUserUseCase.mkDTO (py "Passw0rd") None
                                     (Some (py "c@x.com")) None in
  let w := Fake.world_of [Fake.alice] in
  exists user',
    fst (UpdateUserUseCase._run Fake.alice dto w) = Ok user'
    /\ User.is_email_verified Fake.alice = true
    /\ User.email user' = py "c@x.com"
    /\ User.is_email_verified user' = false.
Proof.
  intros dto w.
  edestruct (update_email_resets_verification Fake.alice dto w
                                              (py "c@x.com"))
    as (Hrun & Hmail & Hflag).
  - reflexivity.
  - reflexivity.
  - reflexivity.
  - reflexivity.
  - reflexivity.
  - vm_compute; discriminate.
  - vm_compute; tauto.
  - reflexivity.
  - reflexivity.
  - eexists. split; [rewrite Hrun; reflexivity|].
    split; [reflexivity|]. split; [exact Hmail | exact Hflag].
Defined.

Lemma update_rejections_witness :
  let w := Fake.world_of [Fake.alice; FakeSession.bobby] in
  UpdateUserUseCase._run Fake.alice
    (UpdateUserUseCase.mkDTO (py "Passw0rd") (Some (py "bobby")) None None) w
  = (raised UsernameAlreadyExists, (Fake.alice, w))
  /\ raised_class
       (fst (UpdateUserUseCase._run Fake.alice
               (UpdateUserUseCase.mkDTO (py "Passw0rd") None None
                                        (Some (py "weak"))) w))
     = Some InvalidPasswordFormat
  /\ snd (UpdateUserUseCase._run Fake.alice
            (UpdateUserUseCase.mkDTO (py "Passw0rd") None None
                                     (Some (py "weak"))) w)
     = (Fake.alice, w).
Proof.
  intros w. split.
  - assert (Hver : verify_password (py "Passw0rd")
                     (User.hashed_password Fake.alice) = Ok true)
      by reflexivity.
    apply (proj1 (update_rejections Fake.alice
                    (UpdateUserUseCase.mkDTO (py "Passw0rd")
                                             (Some (py "bobby")) None None)
                    w Hver) (py "bobby") FakeSession.bobby
                 (Fake.mkSession [Fake.alice; FakeSession.bobby] [])).
    + reflexivity.
    + vm_compute; discriminate.
    + reflexivity.
  - assert (Hver : verify_password (py "Passw0rd")
                     (User.hashed_password Fake.alice) = Ok true)
      by reflexivity.
    apply (proj2 (update_rejections Fake.alice
                    (UpdateUserUseCase.mkDTO (py "Passw0rd") None None
                                             (Some (py "weak")))
                    w Hver) (py "weak")).
    + reflexivity.
    + reflexivity.
    + reflexivity.
    + intros [Hlen _]. vm_compute in Hlen. lia.
Defined.

(* ===================================================================== *)
(** ** Properties of the current-user dependencies *)
(* ===================================================================== *)

Section DependenciesProperties.
Context {DB : Type} `{UserRepository DB} `{Libraries}.
Variable UUID_of_str : pystr -> option UUID.
Import Dependencies.

(** X20. [get_current_user] raises [InvalidToken], without any call to
    the repository, when the JWT library rejects the token, when the
    payload has no "sub" or an empty one, and when the "sub" is not a
    well-formed UUID. *)
Theorem get_current_user_rejects_token (token : pystr) (w : World DB) :
  let attempt :=
    jwt_decode (clock (w_tick w)) token (SECRET_KEY settings)
               [ALGORITHM settings] in
  let rejected :=
    get_current_user UUID_of_str token w
    = (Raise InvalidToken, mkWorld (w_db w) (S (w_tick w))) in
  (forall c, attempt = Raise (EPyJWTError c) -> rejected)
  /\ (forall payload, attempt = Ok payload ->
        payload !! py "sub" = None \/ payload !! py "sub" = Some (CStr []) ->
        rejected)
  /\ (forall payload s, attempt = Ok payload ->
        payload !! py "sub" = Some (CStr s) -> UUID_of_str s = None ->
        rejected).
Proof.
  intros attempt rejected. subst attempt rejected.
  split; [|split].
  - intros c Hd. unfold get_current_user, bind.
    rewrite (decode_access_token_rejects token w c Hd). reflexivity.
  - intros payload Hd Hsub. unfold get_current_user, bind.
    rewrite (decode_access_token_accepts token w payload Hd).
    destruct Hsub as [-> | ->]; reflexivity.
  - intros payload s Hd Hsub Hparse. unfold get_current_user, bind.
    rewrite (decode_access_token_accepts token w payload Hd), Hsub.
    destruct (truthy s); cbn [negb]; [|reflexivity].
    rewrite Hparse. reflexivity.
Qed.

(** X21. With a token whose "sub" is the string of a UUID,
    [get_current_user] looks the account up by that id: when it is absent
    the error is [AuthUserNotFound] (not [UserNotFound]); when it is
    disabled the [UserDisabled] of the use case comes through unchanged;
    otherwise the account found is returned. *)
Theorem get_current_user_lookup
    (token s : pystr) (w : World DB) (payload : gmap pystr Claim)
    (user_id : UUID) :
  jwt_decode (clock (w_tick w)) token (SECRET_KEY settings)
             [ALGORITHM settings] = Ok payload ->
  payload !! py "sub" = Some (CStr s) ->
  s <> [] ->
  UUID_of_str s = Some user_id ->
  (forall db1, get_by_id user_id (w_db w) = (Ok None, db1) ->
     fst (get_current_user UUID_of_str token w) = Raise AuthUserNotFound)
  /\ (forall db1 u, get_by_id user_id (w_db w) = (Ok (Some u), db1) ->
        User.disabled u = true ->
        fst (get_current_user UUID_of_str token w) = raised UserDisabled)
  /\ (forall db1 u, get_by_id user_id (w_db w) = (Ok (Some u), db1) ->
        User.disabled u = false ->
        fst (get_current_user UUID_of_str token w) = Ok u).
Proof.
  intros Hd Hsub Hne Hparse.
  assert (Hstart :
    get_current_user UUID_of_str token w
    = try_except
        (execute (GetUserUseCase._run user_id))
        (fun e =>
           match e with
           | EDomain d =>
             match exc_class d with
             | UserNotFound => throw AuthUserNotFound
             | _ => throw e
             end
           | _ => throw e
           end)
        (mkWorld (w_db w) (S (w_tick w)))).
  { unfold get_current_user, bind.
    rewrite (decode_access_token_accepts token w payload Hd), Hsub.
    destruct s as [|c rest]; [congruence|]. cbn [truthy negb].
    rewrite Hparse. reflexivity. }
  rewrite Hstart.
  unfold try_except, execute, try_except, GetUserUseCase._run, bind, on_db.
  cbn [w_db w_tick].
  split; [|split].
  - intros db1 Hget. rewrite Hget. reflexivity.
  - intros db1 u Hget Hdis. rewrite Hget, Hdis. reflexivity.
  - intros db1 u Hget Hdis. rewrite Hget, Hdis. reflexivity.
Qed.

(** X22. [get_verified_user] rejects, with [EmailNotVerified], every
    account that [change_email] has just returned, and accepts it again
    once [mark_email_as_verified] has been called. *)
Theorem verified_gate_after_change_email
    (u : User.t) (new_email : pystr) (now now' : datetime) :
  User.identity_valid u -> has_at new_email ->
  exists u1 u2,
    User.change_email new_email now u = Ok u1
    /\ get_verified_user u1 = raised EmailNotVerified
    /\ User.mark_email_as_verified now' u1 = Ok u2
    /\ get_verified_user u2 = Ok u2.
Proof.
  intros Hv Hat. eexists; eexists.
  split; [apply (change_email_ok u new_email now Hv Hat)|].
  split; [reflexivity|]. split; reflexivity.
Qed.

End DependenciesProperties.

Lemma get_current_user_rejects_token_witness :
  let w := Fake.world_of [Fake.alice] in
  let w1 := mkWorld (Fake.mkSession [Fake.alice] []) 1 in
  Dependencies.get_current_user FakeSession.parse_digit (py "expired") w
  = (Raise Dependencies.InvalidToken, w1)
  /\ Dependencies.get_current_user FakeSession.parse_digit
       (py "anonymous") w
     = (Raise Dependencies.InvalidToken, w1)
  /\ Dependencies.get_current_user FakeSession.parse_digit
       (py "sub=seven") w
     = (Raise Dependencies.InvalidToken, w1).
Proof.
  intros w w1. split; [|split].
  - apply (proj1 (get_current_user_rejects_token
                    FakeSession.parse_digit (py "expired") w)
                 ExpiredSignatureError).
    reflexivity.
  - apply (proj1 (proj2 (get_current_user_rejects_token
                           FakeSession.parse_digit (py "anonymous") w))
                 ∅).
    + vm_compute; reflexivity.
    + left; vm_compute; reflexivity.
  - apply (proj2 (proj2 (get_current_user_rejects_token
                           FakeSession.parse_digit (py "sub=seven") w))
                 {[ py "sub" := CStr (py "seven") ]} (py "seven")).
    + vm_compute; reflexivity.
    + vm_compute; reflexivity.
    + reflexivity.
Defined.

Lemma get_current_user_lookup_witness :
  fst (Dependencies.get_current_user FakeSession.parse_digit (py "sub=3")
         (Fake.world_of [Fake.alice]))
  = Raise Dependencies.AuthUserNotFound
  /\ fst (Dependencies.get_current_user FakeSession.parse_digit
            (py "sub=7") (Fake.world_of [Fake.alice_disabled]))
     = raised UserDisabled
  /\ fst (Dependencies.get_current_user FakeSession.parse_digit
            (py "sub=7") (Fake.world_of [Fake.alice]))
     = Ok Fake.alice.
Proof.
  split; [|split].
  - edestruct (get_current_user_lookup
                 FakeSession.parse_digit (py "sub=3") (py "3")
                 (Fake.world_of [Fake.alice])
                 {[ py "sub" := CStr (py "3") ]} 3) as (Hnone & _ & _).
    + vm_compute; reflexivity.
    + vm_compute; reflexivity.
    + vm_compute; discriminate.
    + reflexivity.
    + apply (Hnone (Fake.mkSession [Fake.alice] [])). reflexivity.
  - edestruct (get_current_user_lookup
                 FakeSession.parse_digit (py "sub=7") (py "7")
                 (Fake.world_of [Fake.alice_disabled])
                 {[ py "sub" := CStr (py "7") ]} 7) as (_ & Hdis & _).
    + vm_compute; reflexivity.
    + vm_compute; reflexivity.
    + vm_compute; discriminate.
    + reflexivity.
    + apply (Hdis (Fake.mkSession [Fake.alice_disabled] [])
                  Fake.alice_disabled); reflexivity.
  - edestruct (get_current_user_lookup
                 FakeSession.parse_digit (py "sub=7") (py "7")
                 (Fake.world_of [Fake.alice])
                 {[ py "sub" := CStr (py "7") ]} 7) as (_ & _ & Hok).
    + vm_compute; reflexivity.
    + vm_compute; reflexivity.
    + vm_compute; discriminate.
    + reflexivity.
    + apply (Hok (Fake.mkSession [Fake.alice] []) Fake.alice); reflexivity.
Defined.

Lemma verified_gate_after_change_email_witness :
  exists u1 u2,
    User.change_email (py "c@x.com") 40%Z Fake.alice = Ok u1
    /\ Dependencies.get_verified_user u1 = raised EmailNotVerified
    /\ User.mark_email_as_verified 50%Z u1 = Ok u2
    /\ Dependencies.get_verified_user u2 = Ok u2.
Proof.
  apply (verified_gate_after_change_email Fake.alice (py "c@x.com")
                                          40%Z 50%Z).
  - reflexivity.
  - vm_compute; tauto.
Defined.

(* ===================================================================== *)
(** ** Properties of the persistence layer *)
(* ===================================================================== *)

Lemma to_domain_to_orm (u : User.t) :
  User.identity_valid u -> UserMapper.to_domain (UserMapper.to_orm u) = Ok u.
Proof.
  intros Hv. unfold UserMapper.to_domain, UserMapper.to_orm.
  cbn [orm_id orm_username orm_email orm_hashed_password orm_disabled
       orm_is_email_verified orm_created_at orm_updated_at].
  unfold User.identity_valid in Hv. rewrite Hv.
  destruct u as [i idn [h d v] c t]. reflexivity.
Qed.

(** X23. The mapper round-trips: [to_domain (to_orm user)] is [user] for
    every account, and when [to_domain row] returns an account,
    [to_orm] of it is [row]. *)
Theorem mapper_round_trip (u : User.t) (row : UserORM) :
  (User.identity_valid u ->
   UserMapper.to_domain (UserMapper.to_orm u) = Ok u)
  /\ (UserMapper.to_domain row = Ok u ->
      UserMapper.to_orm u = row /\ User.identity_valid u).
Proof.
  split; [apply to_domain_to_orm|].
  unfold UserMapper.to_domain.
  destruct (UserIdentity_new (orm_username row) (orm_email row))
    as [i|e] eqn:Hi; [|discriminate].
  intros [= <-].
  assert (E : i = mkUserIdentity (orm_username row) (orm_email row)).
  { unfold UserIdentity_new in Hi.
    destruct (_ || _); [discriminate|].
    destruct (negb _); [discriminate|]. congruence. }
  subst i. split.
  - destruct row; reflexivity.
  - unfold User.identity_valid. exact Hi.
Qed.

Lemma mapper_round_trip_witness :
  UserMapper.to_domain (UserMapper.to_orm Fake.alice) = Ok Fake.alice
  /\ UserMapper.to_orm Fake.alice = FakeSession.alice_row.
Proof.
  split.
  - apply (proj1 (mapper_round_trip Fake.alice FakeSession.alice_row)).
    reflexivity.
  - apply (proj2 (mapper_round_trip Fake.alice FakeSession.alice_row)).
    reflexivity.
Defined.

(** X24. [update_orm_from_domain] keeps the row's id and creation time and
    takes the six other columns from the account: read back with
    [to_domain], the row gives the account's username, email, hash, flags
    and [updated_at] under the row's own id and creation time; it gives
    the account itself when those two agree. *)
Theorem update_orm_from_domain_reads_back (row : UserORM) (u : User.t) :
  User.identity_valid u ->
  exists u',
    UserMapper.to_domain (UserMapper.update_orm_from_domain row u) = Ok u'
    /\ User.id u' = orm_id row
    /\ User.created_at u' = orm_created_at row
    /\ User._identity u' = User._identity u
    /\ User._security u' = User._security u
    /\ User.updated_at u' = User.updated_at u
    /\ (orm_id row = User.id u -> orm_created_at row = User.created_at u ->
        u' = u).
Proof.
  intros Hv. unfold UserMapper.to_domain, UserMapper.update_orm_from_domain.
  cbn [orm_id orm_username orm_email orm_hashed_password orm_disabled
       orm_is_email_verified orm_created_at orm_updated_at].
  unfold User.identity_valid in Hv. rewrite Hv.
  eexists. split; [reflexivity|].
  destruct u as [i idn [h d v] c t]. cbn.
  repeat split. intros -> ->. reflexivity.
Qed.

Lemma update_orm_from_domain_reads_back_witness :
  exists u',
    UserMapper.to_domain
      (UserMapper.update_orm_from_domain FakeSession.alice_row
                                         Fake.alice_disabled) = Ok u'
    /\ User.id u' = orm_id FakeSession.alice_row
    /\ User.created_at u' = orm_created_at FakeSession.alice_row
    /\ User._identity u' = User._identity Fake.alice_disabled
    /\ User._security u' = User._security Fake.alice_disabled
    /\ User.updated_at u' = User.updated_at Fake.alice_disabled
    /\ (orm_id FakeSession.alice_row = User.id Fake.alice_disabled ->
        orm_created_at FakeSession.alice_row
        = User.created_at Fake.alice_disabled ->
        u' = Fake.alice_disabled).
Proof.
  apply (update_orm_from_domain_reads_back FakeSession.alice_row
                                           Fake.alice_disabled).
  reflexivity.
Defined.

Section RepositoryProperties.
Context {S : Type} `{AsyncSession S}.

(** X25. [UserRepository.get_by_id] returns [None] when the session has
    no row and the mapped account when the row satisfies the identity
    rules; a stored row that breaks them (here an email without "@")
    makes the lookup raise the domain's format error instead of returning
    anything. *)
Theorem repository_get_by_id_outcomes (id : UUID) (s s' : S) :
  (session_get id s = (Ok None, s') ->
   UserRepositoryImpl.get_by_id id s = (Ok None, s'))
  /\ (forall row,
        session_get id s = (Ok (Some row), s') ->
        (4 <= len (orm_username row) <= 10)%nat ->
        has_at (orm_email row) ->
        exists u, UserRepositoryImpl.get_by_id id s = (Ok (Some u), s')
                  /\ UserMapper.to_orm u = row)
  /\ (forall row,
        session_get id s = (Ok (Some row), s') ->
        (4 <= len (orm_username row) <= 10)%nat ->
        ~ has_at (orm_email row) ->
        UserRepositoryImpl.get_by_id id s
        = (raise_domain InvalidEmailFormat, s')).
Proof.
  unfold UserRepositoryImpl.get_by_id, UserRepositoryImpl.mapped, bind,
    liftRes, ret, UserMapper.to_domain.
  split; [|split].
  - intros Hg. rewrite Hg. reflexivity.
  - intros row Hg Hlen Hat. rewrite Hg.
    rewrite (UserIdentity_new_ok _ _ Hlen Hat).
    eexists. split; [reflexivity|]. destruct row; reflexivity.
  - intros row Hg Hlen Hat. rewrite Hg. unfold UserIdentity_new.
    assert (Ht : truthy (orm_username row) = true).
    { destruct (orm_username row); [simpl in Hlen; lia | reflexivity]. }
    assert (E1 : (4 <=? len (orm_username row))%nat = true)
      by (apply Nat.leb_le; lia).
    assert (E2 : (len (orm_username row) <=? 10)%nat = true)
      by (apply Nat.leb_le; lia).
    assert (E3 : contains (py "@") (orm_email row) = false).
    { destruct (contains (py "@") (orm_email row)) eqn:E; [|reflexivity].
      exfalso. apply Hat, contains_at, E. }
    rewrite Ht, E1, E2, E3. reflexivity.
Qed.

(** X26. [UserRepository.update_user] for an account whose id has no row
    returns normally and assigns nothing; when the row exists, the only
    effect is the assignment, to that row, of the account's username,
    email, hash, flags and [updated_at], the row's id and creation time
    being kept. *)
Theorem repository_update_user_outcomes (u : User.t) (s s' : S) :
  (session_get (User.id u) s = (Ok None, s') ->
   UserRepositoryImpl.update_user u s = (Ok tt, s'))
  /\ (forall row,
        session_get (User.id u) s = (Ok (Some row), s') ->
        exists row',
          UserRepositoryImpl.update_user u s
          = (Ok tt, session_assign (orm_id row) row' s')
          /\ orm_id row' = orm_id row
          /\ orm_created_at row' = orm_created_at row
          /\ orm_username row' = User.username u
          /\ orm_email row' = User.email u
          /\ orm_hashed_password row' = User.hashed_password u
          /\ orm_disabled row' = User.disabled u
          /\ orm_is_email_verified row' = User.is_email_verified u
          /\ orm_updated_at row' = User.updated_at u).
Proof.
  unfold UserRepositoryImpl.update_user, bind, ret. split.
  - intros Hg. rewrite Hg. reflexivity.
  - intros row Hg. rewrite Hg. eexists. split; [reflexivity|].
    repeat split.
Qed.

End RepositoryProperties.

Lemma repository_get_by_id_outcomes_witness :
  let s := FakeSession.fresh [FakeSession.alice_row;
                              FakeSession.corrupt_row] in
  UserRepositoryImpl.get_by_id (H := FakeSession.session) 3 s = (Ok None, s)
  /\ (exists u, UserRepositoryImpl.get_by_id (H := FakeSession.session) 7 s
                = (Ok (Some u), s)
                /\ UserMapper.to_orm u = FakeSession.alice_row)
  /\ UserRepositoryImpl.get_by_id (H := FakeSession.session) 9 s
     = (raise_domain InvalidEmailFormat, s).
Proof.
  intros s. split; [|split].
  - apply (proj1 (repository_get_by_id_outcomes
                    (H := FakeSession.session) 3 s s)).
    reflexivity.
  - apply (proj1 (proj2 (repository_get_by_id_outcomes
                           (H := FakeSession.session) 7 s s))
                 FakeSession.alice_row).
    + reflexivity.
    + vm_compute; lia.
    + vm_compute; tauto.
  - apply (proj2 (proj2 (repository_get_by_id_outcomes
                           (H := FakeSession.session) 9 s s))
                 FakeSession.corrupt_row).
    + reflexivity.
    + vm_compute; lia.
    + intros Hat. apply contains_at in Hat. vm_compute in Hat.
      discriminate Hat.
Defined.

Lemma repository_update_user_outcomes_witness :
  let s := FakeSession.fresh [FakeSession.alice_row] in
  UserRepositoryImpl.update_user (H := FakeSession.session)
                                 FakeSession.bobby s = (Ok tt, s)
  /\ exists row',
       UserRepositoryImpl.update_user (H := FakeSession.session)
                                      Fake.alice_disabled s
       = (Ok tt, FakeSession.fresh [row'])
       /\ orm_disabled row' = true
       /\ orm_created_at row' = orm_created_at FakeSession.alice_row.
Proof.
  intros s. split.
  - apply (proj1 (repository_update_user_outcomes
                    (H := FakeSession.session) FakeSession.bobby s s)).
    reflexivity.
  - destruct (proj2 (repository_update_user_outcomes
                       (H := FakeSession.session) Fake.alice_disabled s s)
                    FakeSession.alice_row eq_refl)
      as (row' & Hrun & _ & Hcr & _ & _ & _ & Hdis & _).
    exists (UserMapper.update_orm_from_domain FakeSession.alice_row
                                              Fake.alice_disabled).
    split; [reflexivity|]. split; reflexivity.
Defined.

Section UnitOfWorkProperties.
Context {S : Type} `{AsyncSession S}.
Import SqlAlchemyUnitOfWork.

(** X27. [async with uow]: when the block returns, the session is
    committed and closed and the block's value is the result; when the
    block raises, the session is rolled back and closed and the same
    exception leaves; when the commit itself raises, the session is still
    closed, no rollback is made and the commit's exception leaves in place
    of the block's value. *)
Theorem uow_outcomes {A : Type} (body : M S A) (s s1 s2 s3 : S) :
  session_close s2 = (Ok tt, s3) ->
  (forall a, body s = (Ok a, s1) -> session_commit s1 = (Ok tt, s2) ->
     async_with body s = (Ok a, s3))
  /\ (forall e, body s = (Raise e, s1) ->
        session_rollback s1 = (Ok tt, s2) ->
        async_with body s = (Raise e, s3))
  /\ (forall a e, body s = (Ok a, s1) ->
        session_commit s1 = (Raise e, s2) ->
        async_with body s = (Raise e, s3)).
Proof.
  intros Hclose.
  unfold async_with, __aexit__, try_finally, try_except, commit, rollback,
    throw.
  split; [|split].
  - intros a Hb Hc. rewrite Hb, Hc, Hclose. reflexivity.
  - intros e Hb Hr. rewrite Hb, Hr, Hclose. reflexivity.
  - intros a e Hb Hc. rewrite Hb, Hc, Hclose. reflexivity.
Qed.

(** X28. Whatever the block, the commit, the rollback and the close do,
    [async with uow] makes exactly one of commit and rollback (commit if
    the block returned, rollback if it raised) and then closes the
    session: the state it leaves is the one [close] leaves after that
    call. *)
Theorem uow_always_closes {A : Type} (body : M S A) (s : S) :
  snd (async_with body s)
  = snd (session_close
           (snd (match fst (body s) with
                 | Ok _ => session_commit (snd (body s))
                 | Raise _ => session_rollback (snd (body s))
                 end))).
Proof.
  unfold async_with, __aexit__, try_finally, try_except, commit, rollback,
    throw.
  destruct (body s) as [[a|e] s1]; cbn [fst snd].
  - destruct (session_commit s1) as [[[]|e1] s2]; cbn [snd];
      destruct (session_close s2) as [[[]|e2] s3]; reflexivity.
  - destruct (session_rollback s1) as [[[]|e1] s2]; cbn [snd];
      destruct (session_close s2) as [[[]|e2] s3]; reflexivity.
Qed.

End UnitOfWorkProperties.

Lemma uow_outcomes_witness :
  let add_row : M FakeSession.t unit :=
    UserRepositoryImpl.create_user (H := FakeSession.session) Fake.alice in
  let fail : M FakeSession.t unit :=
    fun s => (raised UserNotFound, s) in
  SqlAlchemyUnitOfWork.async_with (H := FakeSession.session) add_row
    (FakeSession.fresh [])
  = (Ok tt, FakeSession.mk [FakeSession.alice_row]
                           [FakeSession.Committed; FakeSession.Closed] false)
  /\ SqlAlchemyUnitOfWork.async_with (H := FakeSession.session) fail
       (FakeSession.fresh [])
     = (raised UserNotFound,
        FakeSession.mk [] [FakeSession.RolledBack; FakeSession.Closed] false)
  /\ SqlAlchemyUnitOfWork.async_with (H := FakeSession.session) add_row
       (FakeSession.mk [] [] true)
     = (Raise (ESQLAlchemyError (py "commit failed")),
        FakeSession.mk [FakeSession.alice_row] [FakeSession.Closed] true).
Proof.
  intros add_row fail. split; [|split].
  - apply (proj1 (uow_outcomes (H := FakeSession.session) add_row
                    (FakeSession.fresh [])
                    (FakeSession.mk [FakeSession.alice_row] [] false)
                    (FakeSession.mk [FakeSession.alice_row]
                                    [FakeSession.Committed] false)
                    _ eq_refl) tt); reflexivity.
  - apply (proj1 (proj2 (uow_outcomes (H := FakeSession.session) fail
                           (FakeSession.fresh []) (FakeSession.fresh [])
                           (FakeSession.mk [] [FakeSession.RolledBack] false)
                           _ eq_refl))); reflexivity.
  - apply (proj2 (proj2 (uow_outcomes (H := FakeSession.session) add_row
                           (FakeSession.mk [] [] true)
                           (FakeSession.mk [FakeSession.alice_row] [] true)
                           (FakeSession.mk [FakeSession.alice_row] [] true)
                           _ eq_refl)) tt); reflexivity.
Defined.

(* ===================================================================== *)
(** ** Exceptions of the password verifier *)
(* ===================================================================== *)

Section VerifierErrorProperties.
Context {DB : Type} `{UserRepository DB} `{Libraries}.

(** X29. Neither use case handles an exception of the password verifier:
    when [verify_password] raises on the stored hash,
    [AuthenticateUserUseCase._run] and [UpdateUserUseCase._run] raise that
    same exception (not [InvalidCredentials], not
    [InvalidPasswordException]), and the update leaves the account and
    the world as they were. *)
Theorem verifier_error_propagates
    (username password : pystr) (w : World DB) (db' : DB) (u : User.t)
    (dto : UpdateUserUseCase.UpdateUserDTO) (e : Exn) :
  (get_by_username username (w_db w) = (Ok (Some u), db') ->
   verify_password password (User.hashed_password u) = Raise e ->
   fst (AuthenticateUserUseCase._run username password w) = Raise e)
  /\ (verify_password (UpdateUserUseCase.current_password dto)
                      (User.hashed_password u) = Raise e ->
      UpdateUserUseCase._run u dto w = (Raise e, (u, w))).
Proof.
  split.
  - intros Hget Hver.
    unfold AuthenticateUserUseCase._run, bind, on_db, liftRes.
    rewrite Hget, Hver. reflexivity.
  - intros Hver.
    unfold UpdateUserUseCase._run, UpdateUserUseCase.body, bind, self_now,
      liftRes. cbn [fst]. rewrite Hver. reflexivity.
Qed.

End VerifierErrorProperties.

Lemma verifier_error_propagates_witness :
  let w := Fake.world_of [FakeSession.carol] in
  let dto := UpdateUserUseCase.mkDTO (py "Passw0rd") None None
                                     (Some (py "N3wPassword")) in
  fst (AuthenticateUserUseCase._run (H0 := FakeSession.strict_libraries)
         (py "carol") (py "Passw0rd") w)
  = Raise (EOther (py "UnknownHashError"))
  /\ UpdateUserUseCase._run (H0 := FakeSession.strict_libraries)
       FakeSession.carol dto w
     = (Raise (EOther (py "UnknownHashError")), (FakeSession.carol, w)).
Proof.
  intros w dto. split.
  - apply (proj1 (verifier_error_propagates
                    (H0 := FakeSession.strict_libraries)
                    (py "carol") (py "Passw0rd") w
                    (Fake.mkSession [FakeSession.carol] [])
                    FakeSession.carol dto
                    (EOther (py "UnknownHashError")))); reflexivity.
  - apply (proj2 (verifier_error_propagates
                    (H0 := FakeSession.strict_libraries)
                    (py "carol") (py "Passw0rd") w
                    (Fake.mkSession [FakeSession.carol] [])
                    FakeSession.carol dto
                    (EOther (py "UnknownHashError")))); reflexivity.
Defined.

(* ===================================================================== *)
(** ** Registration through the repository and the unit of work *)
(* ===================================================================== *)

Section RegisterRunOk.
Context {DB : Type} `{UserRepository DB} `{Libraries}.
Import RegisterUserUseCase.

Lemma register_run_ok
    (dto : RegisterUserDTO) (w : World DB) (db1 db2 db3 : DB)
    (hashed : pystr) :
  get_by_username (username dto) (w_db w) = (Ok None, db1) ->
  get_by_email (email dto) db1 = (Ok None, db2) ->
  (4 <= len (username dto) <= 10)%nat -> has_at (email dto) ->
  strong_password (password dto) ->
  password_hash_hash (S (S (S (w_tick w)))) (password dto) = Ok hashed ->
  hashed <> [] ->
  create_user
    (User.mk (uuid_source (w_tick w))
             (mkUserIdentity (username dto) (email dto))
             (mkUserSecurity hashed false false)
             (clock (S (w_tick w))) (clock (S (S (S (S (w_tick w)))))))
    db2 = (Ok tt, db3) ->
  _run dto w
  = (Ok (User.mk (uuid_source (w_tick w))
                 (mkUserIdentity (username dto) (email dto))
                 (mkUserSecurity hashed false false)
                 (clock (S (w_tick w))) (clock (S (S (S (S (w_tick w))))))),
     mkWorld db3 (S (S (S (S (S (w_tick w))))))).
Proof.
  intros Hn Hm Hlen Hat Hpw Hhash Hne Hc.
  unfold _run, bind, on_db.
  rewrite Hn. cbn [found w_db w_tick]. rewrite Hm. cbn [found w_db w_tick].
  unfold User_create, User.create. cbn [w_db w_tick].
  rewrite (UserIdentity_new_ok _ _ Hlen Hat). unfold liftRes.
  rewrite (Password_new_ok _ Hpw).
  unfold get_password_hash. cbn [w_db w_tick Password.value].
  rewrite Hhash.
  unfold call, User.set_password. cbn [w_db w_tick].
  destruct hashed as [|c rest]; [congruence|]. cbn [truthy negb].
  unfold try_except. cbn [w_db w_tick User._id User._identity User._security
    User._created_at sec_disabled sec_is_email_verified].
  rewrite Hc. reflexivity.
Qed.

End RegisterRunOk.

Section RegisterAtCommit.
Context {Sess : Type} `{AsyncSession Sess} `{Libraries}.

(** C2. With the repository of [app/infrastructure], [create_user] only
    adds the row to the session, so a uniqueness violation is raised by
    the commit of the unit of work, after [RegisterUserUseCase._run] has
    returned: the [try] of step 5 is left without an exception, and the
    [IntegrityError] of the commit leaves the request as it is, never as
    [UsernameAlreadyExists] or [EmailAlreadyExists]. *)
Theorem register_violation_at_commit_not_translated
    (dto : RegisterUserUseCase.RegisterUserDTO) (n : nat)
    (s s1 s2 s3 s4 s5 : Sess) (hashed : pystr) (orig : DriverError) :
  let u1 := User.mk (uuid_source n)
                    (mkUserIdentity (RegisterUserUseCase.username dto)
                                    (RegisterUserUseCase.email dto))
                    (mkUserSecurity hashed false false)
                    (clock (S n)) (clock (S (S (S (S n))))) in
  let register :=
    @RegisterUserUseCase._run Sess UserRepositoryImpl.repository _ dto in
  session_scalar_by_username (RegisterUserUseCase.username dto) s
  = (Ok None, s1) ->
  session_scalar_by_email (RegisterUserUseCase.email dto) s1
  = (Ok None, s2) ->
  (4 <= len (RegisterUserUseCase.username dto) <= 10)%nat ->
  has_at (RegisterUserUseCase.email dto) ->
  strong_password (RegisterUserUseCase.password dto) ->
  password_hash_hash (S (S (S n))) (RegisterUserUseCase.password dto)
  = Ok hashed ->
  hashed <> [] ->
  session_add (UserMapper.to_orm u1) s2 = (Ok tt, s3) ->
  session_commit s3 = (Raise (EIntegrityError orig), s4) ->
  session_close s4 = (Ok tt, s5) ->
  register (mkWorld s n) = (Ok u1, mkWorld s3 (S (S (S (S (S n))))))
  /\ in_unit_of_work n register s = (Raise (EIntegrityError orig), s5).
Proof.
  intros u1 register Hn Hm Hlen Hat Hpw Hhash Hne Hadd Hcommit Hclose.
  assert (Hrun : register (mkWorld s n)
                 = (Ok u1, mkWorld s3 (S (S (S (S (S n))))))).
  { unfold register.
    apply (register_run_ok (H := UserRepositoryImpl.repository)
             dto (mkWorld s n) s1 s2 s3 hashed).
    - cbn [get_by_username UserRepositoryImpl.repository w_db].
      unfold UserRepositoryImpl.get_by_username, bind.
      rewrite Hn. reflexivity.
    - cbn [get_by_email UserRepositoryImpl.repository].
      unfold UserRepositoryImpl.get_by_email, bind.
      rewrite Hm. reflexivity.
    - exact Hlen.
    - exact Hat.
    - exact Hpw.
    - exact Hhash.
    - exact Hne.
    - cbn [create_user UserRepositoryImpl.repository w_tick].
      unfold UserRepositoryImpl.create_user. exact Hadd. }
  split; [exact Hrun|].
  unfold in_unit_of_work, SqlAlchemyUnitOfWork.async_with, execute,
    try_except.
  rewrite Hrun. cbn [w_db].
  unfold SqlAlchemyUnitOfWork.__aexit__, SqlAlchemyUnitOfWork.try_finally,
    try_except, SqlAlchemyUnitOfWork.commit, throw.
  rewrite Hcommit, Hclose. reflexivity.
Qed.

End RegisterAtCommit.

Lemma register_violation_at_commit_not_translated_witness :
  let dto := RegisterUserUseCase.mkDTO (py "alice") (py "b@x.com")
                                       (py "Passw0rd") in
  let register :=
    @RegisterUserUseCase._run Closer.Session
       (UserRepositoryImpl.repository (H := Closer.session))
       Fake.libraries dto in
  let s := Closer.raced [FakeSession.alice_row] in
  raised_class (fst (register (mkWorld s 0))) = None
  /\ is_ok (fst (register (mkWorld s 0))) = true
  /\ fst (in_unit_of_work (H := Closer.session) 0 register s)
     = Raise (Closer.violation (py "ix_users_username")).
Proof.
  intros dto register s.
  edestruct (register_violation_at_commit_not_translated
               (H := Closer.session) (H0 := Fake.libraries) dto 0 s)
    as (Hrun & Hreq).
  - reflexivity.
  - reflexivity.
  - vm_compute; lia.
  - vm_compute; tauto.
  - split; [vm_compute; lia|].
    split; [exists 80|split; [exists 97|exists 48]];
      (split; [vm_compute; tauto | lia]).
  - reflexivity.
  - vm_compute; discriminate.
  - reflexivity.
  - vm_compute; reflexivity.
  - reflexivity.
  - fold register in Hrun, Hreq. rewrite Hrun, Hreq.
    split; [reflexivity|]. split; reflexivity.
Defined.
